(** * HireLink: the authorization gate and the job queries

    A shallow embedding of the Express handlers of the four service
    variants of the repository:

      - [RootIndex]   src/index.js
      - [Unnamed000]  src/unnamed/part_000
      - [ApiFirst]    src/api/index.js, first document
      - [ApiSecond]   src/api/index.js, second document

    Handlers are computations in a small state-and-exception monad over a
    [World] that holds the two collections of the document store, the
    reachability of the store, and the trace of the calls that left the
    process (identity provider and store). *)

From Stdlib Require Import ZArith List String Ascii Bool Lia Sorted Permutation.
Import ListNotations.

Local Open Scope string_scope.
Local Open Scope Z_scope.

(* ===================================================================== *)
(** ** JavaScript values and string primitives used by the handlers      *)
(* ===================================================================== *)

Module JS.

(** A header or a JSON body field: [None] is [undefined]. *)
Definition value := option string.

(** [!!s] for a string: only the empty string is falsy. *)
Definition truthy_string (s : string) : bool :=
  match s with
  | EmptyString => false
  | String _ _ => true
  end.

(** [!!v] for a string-or-undefined value. *)
Definition truthy (v : value) : bool :=
  match v with
  | None => false
  | Some s => truthy_string s
  end.

(** [s.startsWith(p)] *)
Fixpoint startsWith (s p : string) {struct p} : bool :=
  match p with
  | EmptyString => true
  | String c p' =>
      match s with
      | EmptyString => false
      | String d s' => Ascii.eqb d c && startsWith s' p'
      end
  end.

(** [s.split(sep)] for a one-character separator: never empty, the
    pieces are the maximal runs between separators. *)
Fixpoint split (s : string) (sep : ascii) : list string :=
  match s with
  | EmptyString => [EmptyString]
  | String c s' =>
      if Ascii.eqb c sep then EmptyString :: split s' sep
      else match split s' sep with
           | [] => [String c EmptyString]
           | piece :: pieces => String c piece :: pieces
           end
  end.

(** [a[i]]: [undefined] out of range. *)
Definition index (a : list string) (i : nat) : value := nth_error a i.

(** [`${v}`]: interpolation of a value in a template literal. *)
Definition interpolate (v : value) : string :=
  match v with
  | None => "undefined"
  | Some s => s
  end.

Definition space : ascii := " "%char.

End JS.

(* ===================================================================== *)
(** ** Data model: the two mongoose schemas                              *)
(* ===================================================================== *)

(** [jobSchema]; [postedAt] is a [Date], kept as milliseconds since the
    epoch. *)
Record Job := mkJob {
  job_id : nat;
  title : JS.value;
  description : JS.value;
  link : JS.value;
  postedAt : Z
}.

(** [userSchema]; [password] holds the bcrypt hash. *)
Record User := mkUser {
  user_id : nat;
  name : JS.value;
  email : JS.value;
  department : JS.value;
  password : string;
  is_verified : bool
}.

(* ===================================================================== *)
(** ** The world outside the handlers                                    *)
(* ===================================================================== *)

(** Calls that leave the process, newest first in the trace. *)
Inductive event :=
| AxiosGetUser (authorization : string)
| JobFind
| JobSave
| UserFindOne
| UserSave.

Record World := mkWorld {
  jobs : list Job;
  users : list User;
  db_up : bool;
  next_id : nat;
  trace : list event
}.

Inductive error :=
| StoreError
| DuplicateKey
| ReferenceError (ident : string)
| AxiosError
| IllegalArguments.

(** What the identity provider answers to [GET /auth/v1/user]. *)
Inductive idp_reply :=
| IdpResponse (status : Z) (data : string)
| IdpUnreachable.

(** The collaborators a handler is given: the identity provider, keyed by
    the [Authorization] header it is presented, and bcrypt.  The service
    URL and API key (environment in three variants, literals in
    [Unnamed000]) are not part of the model. *)
Record Env := mkEnv {
  idp : string -> idp_reply;
  bcrypt_hash : string -> string;
  bcrypt_compare : string -> string -> bool
}.

(* ===================================================================== *)
(** ** Requests and responses                                            *)
(* ===================================================================== *)

(** The parsed JSON body, read through the seven keys the handlers
    destructure.  A field is a text value or absent: numbers, booleans,
    [null], arrays and objects, which [express.json()] would also pass on
    (an object under [email] reaches [User.findOne] as a query operator;
    an object or array under [title] fails the [String] cast of the
    schema), are outside this model. *)
Record Body := mkBody {
  body_name : JS.value;
  body_email : JS.value;
  body_department : JS.value;
  body_password : JS.value;
  body_title : JS.value;
  body_description : JS.value;
  body_link : JS.value
}.

Record Request := mkRequest {
  authorization : JS.value;
  body : Body
}.

Inductive payload :=
| Message (message : string)
| MessageError (message : string) (err : error)
| MessageToken (message : string) (token : string)
| MessageUser (message : string) (user : User)
| MessageJob (message : string) (job : Job)
| JobList (l : list Job).

Record Response := mkResponse {
  status : Z;
  json : payload
}.

(* ===================================================================== *)
(** ** The handler monad: state over [World], with exceptions            *)
(* ===================================================================== *)

Inductive outcome (A : Type) :=
| Ret (a : A)
| Throw (e : error).
Arguments Ret {A} a.
Arguments Throw {A} e.

Definition M (A : Type) : Type := World -> outcome A * World.

Definition ret {A} (a : A) : M A := fun w => (Ret a, w).

Definition throw {A} (e : error) : M A := fun w => (Throw e, w).

Definition bind {A B} (m : M A) (k : A -> M B) : M B :=
  fun w =>
    match m w with
    | (Ret a, w') => k a w'
    | (Throw e, w') => (Throw e, w')
    end.

(** [try { m } catch (e) { h e }] *)
Definition try_catch {A} (m : M A) (h : error -> M A) : M A :=
  fun w =>
    match m w with
    | (Ret a, w') => (Ret a, w')
    | (Throw e, w') => h e w'
    end.

(** The world after one more call has left the process. *)
Definition logged (e : event) (w : World) : World :=
  mkWorld (jobs w) (users w) (db_up w) (next_id w) (e :: trace w).

Definition emit (e : event) : M unit :=
  fun w => (Ret tt, logged e w).

Notation "x <- m ;; k" := (bind m (fun x => k))
  (at level 61, m at next level, right associativity).
Notation "m ;;; k" := (bind m (fun _ => k))
  (at level 61, right associativity).

(** [res.status(code).json(payload)] in a route handler. *)
Definition send (code : Z) (p : payload) : M Response :=
  ret (mkResponse code p).

(** A middleware either answers the request itself or calls [next()]
    after setting [req.user]. *)
Definition stop (code : Z) (p : payload) : M (Response + string) :=
  ret (inl (mkResponse code p)).

Definition next (req_user : string) : M (Response + string) :=
  ret (inr req_user).

(* ===================================================================== *)
(** ** External calls                                                    *)
(* ===================================================================== *)

(** [axios.get(url, { headers: { Authorization, apikey } })]: axios
    rejects on a transport failure and, with its default
    [validateStatus], on every status outside 200..299. *)
Definition axios_get_user (env : Env) (authorization_header : string) : M (Z * string) :=
  emit (AxiosGetUser authorization_header) ;;;
  match idp env authorization_header with
  | IdpUnreachable => throw AxiosError
  | IdpResponse st data =>
      if (200 <=? st) && (st <? 300) then ret (st, data) else throw AxiosError
  end.

(** [bcrypt.hash(password, 10)] and [bcrypt.compare(password, hash)]
    reject when the password is not a string. *)
Definition hash (env : Env) (pw : JS.value) : M string :=
  match pw with
  | None => throw IllegalArguments
  | Some p => ret (bcrypt_hash env p)
  end.

Definition compare (env : Env) (pw : JS.value) (hashed : string) : M bool :=
  match pw with
  | None => throw IllegalArguments
  | Some p => ret (bcrypt_compare env p hashed)
  end.

(** An identifier that is bound nowhere in the module. *)
Definition unbound {A} (ident : string) : M A := throw (ReferenceError ident).

(* ===================================================================== *)
(** ** The document store                                                *)
(* ===================================================================== *)

(** Every operation is recorded and rejects while the store is down. *)
Definition store_op {A} (e : event) (op : World -> outcome A * World) : M A :=
  emit e ;;;
  fun w => if db_up w then op w else (Throw StoreError, w).

(** [{ postedAt: { $gte: cutoff } }] *)
Definition postedAt_gte (cutoff : Z) (j : Job) : bool := cutoff <=? postedAt j.

(** [.sort({ postedAt: -1 })]: insertion keeps the stored order among
    postings of equal [postedAt]. *)
Fixpoint insert_desc (j : Job) (l : list Job) : list Job :=
  match l with
  | [] => [j]
  | k :: l' =>
      if postedAt k <=? postedAt j then j :: k :: l'
      else k :: insert_desc j l'
  end.

Fixpoint sort_postedAt_desc (l : list Job) : list Job :=
  match l with
  | [] => []
  | j :: l' => insert_desc j (sort_postedAt_desc l')
  end.

(** [Job.find(cond)] followed by an optional [.sort]: one query. *)
Definition Job_find (cond : Job -> bool) (order : list Job -> list Job) : M (list Job) :=
  store_op JobFind (fun w => (Ret (order (filter cond (jobs w))), w)).

Definition find_all (j : Job) : bool := true.
Definition unsorted (l : list Job) : list Job := l.

(** [new Job({ title, description, link })]: a fresh [_id], and
    [postedAt] defaulted to [Date.now()]. *)
Definition new_Job (now : Z) (t d l : JS.value) : M Job :=
  fun w =>
    (Ret (mkJob (next_id w) t d l now),
     mkWorld (jobs w) (users w) (db_up w) (S (next_id w)) (trace w)).

Definition Job_save (j : Job) : M unit :=
  store_op JobSave (fun w =>
    (Ret tt, mkWorld (jobs w ++ [j]) (users w) (db_up w) (next_id w) (trace w))).

Definition value_eqb (a b : JS.value) : bool :=
  match a, b with
  | None, None => true
  | Some x, Some y => String.eqb x y
  | _, _ => false
  end.

(** [User.findOne({ email })]: the first stored account with that email. *)
Definition User_findOne (e : JS.value) : M (option User) :=
  store_op UserFindOne (fun w =>
    (Ret (find (fun u => value_eqb (email u) e) (users w)), w)).

Definition new_User (n e d : JS.value) (hashed : string) : M User :=
  fun w =>
    (Ret (mkUser (next_id w) n e d hashed false),
     mkWorld (jobs w) (users w) (db_up w) (S (next_id w)) (trace w)).

(** [newUser.save()]: the unique index on [email] rejects a duplicate. *)
Definition User_save (u : User) : M unit :=
  store_op UserSave (fun w =>
    if existsb (fun v => value_eqb (email v) (email u)) (users w)
    then (Throw DuplicateKey, w)
    else (Ret tt, mkWorld (jobs w) (users w ++ [u]) (db_up w) (next_id w) (trace w))).

Definition day_ms : Z := 24 * 60 * 60 * 1000.

(* ===================================================================== *)
(** ** src/index.js                                                      *)
(* ===================================================================== *)

Module RootIndex.

Definition verifyToken (env : Env) (req : Request) : M (Response + string) :=
  match authorization req with
  | None => stop 401 (Message "Token missing or invalid")
  | Some authHeader =>
      if negb (JS.truthy_string authHeader)
         || negb (JS.startsWith authHeader "Bearer ")
      then stop 401 (Message "Token missing or invalid")
      else
        let token := JS.index (JS.split authHeader JS.space) 1 in
        try_catch
          (response <- axios_get_user env ("Bearer " ++ JS.interpolate token) ;;
           if negb (fst response =? 200)
           then stop 401 (Message "Invalid token")
           else next (snd response))
          (fun err => stop 401 (Message "Invalid or expired token"))
  end.

Definition register (env : Env) (req : Request) : M Response :=
  let b := body req in
  try_catch
    (hashedPassword <- hash env (body_password b) ;;
     newUser <- new_User (body_name b) (body_email b) (body_department b)
                         hashedPassword ;;
     User_save newUser ;;;
     send 201 (Message "User registered successfully!"))
    (fun error => send 500 (MessageError "Error registering user" error)).

Definition login (env : Env) (req : Request) : M Response :=
  let b := body req in
  try_catch
    (found <- User_findOne (body_email b) ;;
     match found with
     | None => send 400 (Message "User not found")
     | Some user =>
         isMatch <- compare env (body_password b) (password user) ;;
         if negb isMatch then send 400 (Message "Invalid credentials")
         else
           token <- unbound "jwt" ;;
           send 200 (MessageToken "Login successful" token)
     end)
    (fun error => send 500 (MessageError "Error during login" error)).

Definition add_job_handler (now : Z) (req : Request) : M Response :=
  let b := body req in
  if negb (JS.truthy (body_title b))
     || negb (JS.truthy (body_description b))
     || negb (JS.truthy (body_link b))
  then send 400 (Message "Missing required fields")
  else
    try_catch
      (newJob <- new_Job now (body_title b) (body_description b) (body_link b) ;;
       Job_save newJob ;;;
       send 201 (MessageJob "Job added successfully!" newJob))
      (fun error => send 500 (MessageError "Error adding job" error)).

(** [app.post("/add-job", verifyToken, handler)] *)
Definition add_job (env : Env) (now : Z) (req : Request) : M Response :=
  gate <- verifyToken env req ;;
  match gate with
  | inl response => ret response
  | inr _ => add_job_handler now req
  end.

Definition all_jobs : M Response :=
  try_catch
    (found <- Job_find find_all unsorted ;;
     send 200 (JobList found))
    (fun error => send 500 (MessageError "Error fetching jobs" error)).

Definition latest_jobs (now : Z) : M Response :=
  try_catch
    (let twentyFourHoursAgo := now - 24 * 60 * 60 * 1000 in
     found <- Job_find (postedAt_gte twentyFourHoursAgo) sort_postedAt_desc ;;
     send 200 (JobList found))
    (fun error => send 500 (MessageError "Error fetching latest jobs" error)).

End RootIndex.

(* ===================================================================== *)
(** ** src/unnamed/part_000                                              *)
(* ===================================================================== *)

Module Unnamed000.

Definition verifyToken (env : Env) (req : Request) : M (Response + string) :=
  match authorization req with
  | None => stop 401 (Message "Token missing or invalid")
  | Some authHeader =>
      if negb (JS.truthy_string authHeader)
         || negb (JS.startsWith authHeader "Bearer ")
      then stop 401 (Message "Token missing or invalid")
      else
        let token := JS.index (JS.split authHeader JS.space) 1 in
        try_catch
          (response <- axios_get_user env ("Bearer " ++ JS.interpolate token) ;;
           if negb (fst response =? 200)
           then stop 401 (Message "Invalid token")
           else next (snd response))
          (fun err => stop 401 (Message "Invalid or expired token"))
  end.

Definition register (env : Env) (req : Request) : M Response :=
  let b := body req in
  try_catch
    (hashedPassword <- hash env (body_password b) ;;
     newUser <- new_User (body_name b) (body_email b) (body_department b)
                         hashedPassword ;;
     User_save newUser ;;;
     send 201 (Message "User registered successfully!"))
    (fun error => send 500 (MessageError "Error registering user" error)).

Definition login (env : Env) (req : Request) : M Response :=
  let b := body req in
  try_catch
    (found <- User_findOne (body_email b) ;;
     match found with
     | None => send 400 (Message "User not found")
     | Some user =>
         isMatch <- compare env (body_password b) (password user) ;;
         if negb isMatch then send 400 (Message "Invalid credentials")
         else
           token <- unbound "jwt" ;;
           send 200 (MessageToken "Login successful" token)
     end)
    (fun error => send 500 (MessageError "Error during login" error)).

Definition add_job_handler (now : Z) (req : Request) : M Response :=
  let b := body req in
  if negb (JS.truthy (body_title b))
     || negb (JS.truthy (body_description b))
     || negb (JS.truthy (body_link b))
  then send 400 (Message "Missing required fields")
  else
    try_catch
      (newJob <- new_Job now (body_title b) (body_description b) (body_link b) ;;
       Job_save newJob ;;;
       send 201 (MessageJob "Job added successfully!" newJob))
      (fun error => send 500 (MessageError "Error adding job" error)).

(** [app.post("/add-job", verifyToken, handler)] *)
Definition add_job (env : Env) (now : Z) (req : Request) : M Response :=
  gate <- verifyToken env req ;;
  match gate with
  | inl response => ret response
  | inr _ => add_job_handler now req
  end.

Definition all_jobs : M Response :=
  try_catch
    (found <- Job_find find_all unsorted ;;
     send 200 (JobList found))
    (fun error => send 500 (MessageError "Error fetching jobs" error)).

Definition latest_jobs (now : Z) : M Response :=
  try_catch
    (let twentyFourHoursAgo := now - 24 * 60 * 60 * 1000 in
     found <- Job_find (postedAt_gte twentyFourHoursAgo) sort_postedAt_desc ;;
     send 200 (JobList found))
    (fun error => send 500 (MessageError "Error fetching latest jobs" error)).

End Unnamed000.

(* ===================================================================== *)
(** ** src/api/index.js, first document                                  *)
(* ===================================================================== *)

Module ApiFirst.

Definition verifyToken (env : Env) (req : Request) : M (Response + string) :=
  match authorization req with
  | None => stop 401 (Message "Token missing or invalid")
  | Some authHeader =>
      if negb (JS.truthy_string authHeader)
         || negb (JS.startsWith authHeader "Bearer ")
      then stop 401 (Message "Token missing or invalid")
      else
        let token := JS.index (JS.split authHeader JS.space) 1 in
        try_catch
          (response <- axios_get_user env ("Bearer " ++ JS.interpolate token) ;;
           if negb (fst response =? 200)
           then stop 401 (Message "Invalid token")
           else next (snd response))
          (fun err => stop 401 (Message "Invalid or expired token"))
  end.

Definition register (env : Env) (req : Request) : M Response :=
  let b := body req in
  try_catch
    (hashedPassword <- hash env (body_password b) ;;
     newUser <- new_User (body_name b) (body_email b) (body_department b)
                         hashedPassword ;;
     User_save newUser ;;;
     send 201 (Message "User registered successfully!"))
    (fun error => send 500 (MessageError "Error registering user" error)).

Definition login (env : Env) (req : Request) : M Response :=
  let b := body req in
  try_catch
    (found <- User_findOne (body_email b) ;;
     match found with
     | None => send 400 (Message "User not found")
     | Some user =>
         isMatch <- compare env (body_password b) (password user) ;;
         if negb isMatch then send 400 (Message "Invalid credentials")
         else
           token <- unbound "jwt" ;;
           send 200 (MessageToken "Login successful" token)
     end)
    (fun error => send 500 (MessageError "Error during login" error)).

Definition add_job_handler (now : Z) (req : Request) : M Response :=
  let b := body req in
  if negb (JS.truthy (body_title b))
     || negb (JS.truthy (body_description b))
     || negb (JS.truthy (body_link b))
  then send 400 (Message "Missing required fields")
  else
    try_catch
      (newJob <- new_Job now (body_title b) (body_description b) (body_link b) ;;
       Job_save newJob ;;;
       send 201 (MessageJob "Job added successfully!" newJob))
      (fun error => send 500 (MessageError "Error adding job" error)).

(** [app.post("/add-job", verifyToken, handler)] *)
Definition add_job (env : Env) (now : Z) (req : Request) : M Response :=
  gate <- verifyToken env req ;;
  match gate with
  | inl response => ret response
  | inr _ => add_job_handler now req
  end.

Definition all_jobs : M Response :=
  try_catch
    (found <- Job_find find_all unsorted ;;
     send 200 (JobList found))
    (fun error => send 500 (MessageError "Error fetching jobs" error)).

Definition latest_jobs (now : Z) : M Response :=
  try_catch
    (let twentyFourHoursAgo := now - 24 * 60 * 60 * 1000 in
     found <- Job_find (postedAt_gte twentyFourHoursAgo) sort_postedAt_desc ;;
     send 200 (JobList found))
    (fun error => send 500 (MessageError "Error fetching latest jobs" error)).

End ApiFirst.

(* ===================================================================== *)
(** ** src/api/index.js, second document                                 *)
(* ===================================================================== *)

Module ApiSecond.

Definition verifyToken (env : Env) (req : Request) : M (Response + string) :=
  match authorization req with
  | None => stop 401 (Message "Token missing or invalid")
  | Some authHeader =>
      if negb (JS.truthy_string authHeader)
         || negb (JS.startsWith authHeader "Bearer ")
      then stop 401 (Message "Token missing or invalid")
      else
        let token := JS.index (JS.split authHeader JS.space) 1 in
        try_catch
          (response <- axios_get_user env ("Bearer " ++ JS.interpolate token) ;;
           if negb (fst response =? 200)
           then stop 401 (Message "Invalid token")
           else next (snd response))
          (fun err => stop 401 (Message "Invalid or check expired token"))
  end.

Definition register (env : Env) (req : Request) : M Response :=
  let b := body req in
  try_catch
    (hashedPassword <- hash env (body_password b) ;;
     newUser <- new_User (body_name b) (body_email b) (body_department b)
                         hashedPassword ;;
     User_save newUser ;;;
     send 201 (Message "User registered successfully!"))
    (fun error => send 500 (MessageError "Error registering user" error)).

Definition login (env : Env) (req : Request) : M Response :=
  let b := body req in
  try_catch
    (found <- User_findOne (body_email b) ;;
     match found with
     | None => send 400 (Message "User not found")
     | Some user =>
         isMatch <- compare env (body_password b) (password user) ;;
         if negb isMatch then send 400 (Message "Invalid credentials")
         else send 200 (MessageUser "Login successful" user)
     end)
    (fun error => send 500 (MessageError "Error during login" error)).

Definition add_job_handler (now : Z) (req : Request) : M Response :=
  let b := body req in
  if negb (JS.truthy (body_title b))
     || negb (JS.truthy (body_description b))
     || negb (JS.truthy (body_link b))
  then send 400 (Message "Missing required fields")
  else
    try_catch
      (job <- new_Job now (body_title b) (body_description b) (body_link b) ;;
       Job_save job ;;;
       send 201 (MessageJob "Job added successfully" job))
      (fun err => send 500 (MessageError "Error adding job" err)).

(** [app.post("/add-job", verifyToken, handler)] *)
Definition add_job (env : Env) (now : Z) (req : Request) : M Response :=
  gate <- verifyToken env req ;;
  match gate with
  | inl response => ret response
  | inr _ => add_job_handler now req
  end.

(** Excludes the postings older than thirty days. *)
Definition all_jobs (now : Z) : M Response :=
  try_catch
    (let thirtyDaysAgo := now - 30 * 24 * 60 * 60 * 1000 in
     found <- Job_find (postedAt_gte thirtyDaysAgo) sort_postedAt_desc ;;
     send 200 (JobList found))
    (fun error => send 500 (MessageError "Error fetching jobs" error)).

Definition latest_jobs (now : Z) : M Response :=
  try_catch
    (let twentyFourHoursAgo := now - 24 * 60 * 60 * 1000 in
     found <- Job_find (postedAt_gte twentyFourHoursAgo) sort_postedAt_desc ;;
     send 200 (JobList found))
    (fun error => send 500 (MessageError "Error fetching latest jobs" error)).

End ApiSecond.

(* ===================================================================== *)
(** ** The four variants behind one name                                 *)
(* ===================================================================== *)

Inductive variant := VRootIndex | VUnnamed000 | VApiFirst | VApiSecond.

Definition verifyToken (v : variant) : Env -> Request -> M (Response + string) :=
  match v with
  | VRootIndex => RootIndex.verifyToken
  | VUnnamed000 => Unnamed000.verifyToken
  | VApiFirst => ApiFirst.verifyToken
  | VApiSecond => ApiSecond.verifyToken
  end.

Definition login (v : variant) : Env -> Request -> M Response :=
  match v with
  | VRootIndex => RootIndex.login
  | VUnnamed000 => Unnamed000.login
  | VApiFirst => ApiFirst.login
  | VApiSecond => ApiSecond.login
  end.

Definition add_job (v : variant) : Env -> Z -> Request -> M Response :=
  match v with
  | VRootIndex => RootIndex.add_job
  | VUnnamed000 => Unnamed000.add_job
  | VApiFirst => ApiFirst.add_job
  | VApiSecond => ApiSecond.add_job
  end.

Definition add_job_handler (v : variant) : Z -> Request -> M Response :=
  match v with
  | VRootIndex => RootIndex.add_job_handler
  | VUnnamed000 => Unnamed000.add_job_handler
  | VApiFirst => ApiFirst.add_job_handler
  | VApiSecond => ApiSecond.add_job_handler
  end.

(** Only [ApiSecond] reads the clock in [/all-jobs]. *)
Definition all_jobs (v : variant) (now : Z) : M Response :=
  match v with
  | VRootIndex => RootIndex.all_jobs
  | VUnnamed000 => Unnamed000.all_jobs
  | VApiFirst => ApiFirst.all_jobs
  | VApiSecond => ApiSecond.all_jobs now
  end.

Definition latest_jobs (v : variant) : Z -> M Response :=
  match v with
  | VRootIndex => RootIndex.latest_jobs
  | VUnnamed000 => Unnamed000.latest_jobs
  | VApiFirst => ApiFirst.latest_jobs
  | VApiSecond => ApiSecond.latest_jobs
  end.

Definition register (v : variant) : Env -> Request -> M Response :=
  match v with
  | VRootIndex => RootIndex.register
  | VUnnamed000 => Unnamed000.register
  | VApiFirst => ApiFirst.register
  | VApiSecond => ApiSecond.register
  end.

(** The variants whose [/login] signs a token with [jwt]. *)
Definition signs_jwt (v : variant) : bool :=
  match v with
  | VApiSecond => false
  | _ => true
  end.

(* ===================================================================== *)
(** ** Vocabulary of the statements                                      *)
(* ===================================================================== *)

(** The header is absent or does not start with the bearer prefix. *)
Definition missing_or_malformed (h : JS.value) : Prop :=
  match h with
  | None => True
  | Some s => JS.startsWith s "Bearer " = false
  end.

(** The identity provider was called somewhere in a trace. *)
Definition is_idp_call (e : event) : bool :=
  match e with
  | AxiosGetUser _ => true
  | _ => false
  end.

Definition is_store_call (e : event) : bool :=
  match e with
  | AxiosGetUser _ => false
  | _ => true
  end.

(** The [Authorization] header the gate presents for a request header. *)
Definition presented_credential (authHeader : string) : string :=
  "Bearer " ++ JS.interpolate (JS.index (JS.split authHeader JS.space) 1).

(** The identity provider does not accept: it is unreachable, or answers
    with a status other than 200. *)
Definition not_accepted (r : idp_reply) : Prop :=
  match r with
  | IdpUnreachable => True
  | IdpResponse st _ => st <> 200
  end.

(** The message of the [catch] branch of the gate. *)
Definition catch_message (v : variant) : string :=
  match v with
  | VApiSecond => "Invalid or check expired token"
  | _ => "Invalid or expired token"
  end.

(** What the gate answers once the identity provider has replied. *)
Definition gate_verdict (v : variant) (r : idp_reply) : Response + string :=
  match r with
  | IdpUnreachable => inl (mkResponse 401 (Message (catch_message v)))
  | IdpResponse st data =>
      if (200 <=? st) && (st <? 300)
      then if st =? 200 then inr data
           else inl (mkResponse 401 (Message "Invalid token"))
      else inl (mkResponse 401 (Message (catch_message v)))
  end.

(** No space occurs in a string. *)
Fixpoint no_space (s : string) : bool :=
  match s with
  | EmptyString => true
  | String c s' => negb (Ascii.eqb c JS.space) && no_space s'
  end.

(** The message of a successful [/add-job]. *)
Definition added_message (v : variant) : string :=
  match v with
  | VApiSecond => "Job added successfully"
  | _ => "Job added successfully!"
  end.

(** The three required fields of [/add-job] are all truthy. *)
Definition fields_present (b : Body) : bool :=
  JS.truthy (body_title b) && JS.truthy (body_description b)
  && JS.truthy (body_link b).

(** The posting [/add-job] builds from a request in a world. *)
Definition posting (now : Z) (req : Request) (w : World) : Job :=
  mkJob (next_id w) (body_title (body req)) (body_description (body req))
        (body_link (body req)) now.

(** A field of the body is empty or missing. *)
Definition empty_or_missing (v : JS.value) : Prop :=
  v = None \/ v = Some "".

(** [a] appears before [b] in [l]. *)
Definition appears_before {A} (a b : A) (l : list A) : Prop :=
  exists l1 l2 l3, l = (l1 ++ a :: l2 ++ b :: l3)%list.

(** The emails of the stored accounts are pairwise distinct, as the
    unique index of the store keeps them. *)
Definition unique_emails (us : list User) : Prop :=
  NoDup (map email us).

(** The jobs a response carries, when it is a 200 with a job list. *)
Definition listed (r : Response) : option (list Job) :=
  match json r with
  | JobList l => if status r =? 200 then Some l else None
  | _ => None
  end.

(** What a handler answers from a world, when it answers. *)
Definition answer (m : M Response) (w : World) : option Response :=
  match fst (m w) with
  | Ret r => Some r
  | Throw _ => None
  end.

Definition jobs_returned (m : M Response) (w : World) : option (list Job) :=
  match answer m w with
  | Some r => listed r
  | None => None
  end.

Definition status_returned (m : M Response) (w : World) : option Z :=
  option_map status (answer m w).

(** Most recent first. *)
Definition newer_or_equal (a b : Job) : Prop := postedAt a >= postedAt b.

Definition descending (l : list Job) : Prop := StronglySorted newer_or_equal l.

(** An account with this email is stored already. *)
Definition email_taken (e : JS.value) (us : list User) : bool :=
  existsb (fun u => value_eqb (email u) e) us.

(** The account [/register] builds from a request with password [p]. *)
Definition registered (env : Env) (req : Request) (p : string) (w : World) : User :=
  mkUser (next_id w) (body_name (body req)) (body_email (body req))
         (body_department (body req)) (bcrypt_hash env p) false.

(** The identity provider answers 200 with [data] to the credential the
    gate extracts from the request. *)
Definition credential_accepted (env : Env) (req : Request) (data : string) : Prop :=
  exists h,
    authorization req = Some h
    /\ JS.startsWith h "Bearer " = true
    /\ idp env (presented_credential h) = IdpResponse 200 data.

(** The calls to the store, and to the identity provider, in a trace. *)
Definition store_calls (w : World) : list event := filter is_store_call (trace w).

Definition idp_calls (w : World) : list event := filter is_idp_call (trace w).

(** What the store holds, apart from the bookkeeping of the model. *)
Definition collections (w : World) : list Job * list User := (jobs w, users w).

(** [/all-jobs] answers with a list that holds every stored posting. *)
Definition returns_every_posting (v : variant) (now : Z) (w : World) : Prop :=
  exists l, jobs_returned (all_jobs v now) w = Some l /\
            forall j, In j (jobs w) -> In j l.

(** The gate presents the whole remainder of the header as credential. *)
Definition presents_remainder (v : variant) (env : Env) (rest : string) (w : World) : Prop :=
  trace (snd (verifyToken v env (mkRequest (Some ("Bearer " ++ rest))
                                           (mkBody None None None None None None None)) w))
  = AxiosGetUser ("Bearer " ++ rest) :: trace w.

(** Two calls of [/latest-jobs], the second right after the first and at
    its own reading of the clock, answer with the same list. *)
Definition identical_twice (v : variant) (t1 t2 : Z) (w : World) : Prop :=
  jobs_returned (latest_jobs v t2) (snd (latest_jobs v t1 w))
  = jobs_returned (latest_jobs v t1) w.

(** [/add-job] answers 400 to a request. *)
Definition answers_400 (v : variant) (env : Env) (now : Z) (req : Request) (w : World) : Prop :=
  status_returned (add_job v env now req) w = Some 400.

(** The contract of the windowed query, in the words of the
    specification: on success the answer is a rearrangement of the stored
    postings inside the window, most recent first; a store failure gives
    no list. *)
Definition meets_latest_jobs_spec (now : Z) (w : World) (res : option (list Job)) : Prop :=
  match res with
  | Some l =>
      db_up w = true
      /\ Permutation (filter (fun j => now - day_ms <=? postedAt j) (jobs w)) l
      /\ descending l
  | None => db_up w = false
  end.

(** [/latest-jobs] in the words of the specification: keep the postings
    with [postedAt >= now - 24h], most recent first; any store failure is
    a 500. *)
Definition spec_latest_jobs (now : Z) (w : World) : option (list Job) :=
  if db_up w
  then Some (sort_postedAt_desc
               (filter (fun j => now - day_ms <=? postedAt j) (jobs w)))
  else None.

(* ===================================================================== *)
(** ** Concrete collaborators, stores and requests                       *)
(* ===================================================================== *)

Module Fixture.

(** An identity provider that knows one good token, answers 204 to one,
    401 to an expired one, and is unreachable for the rest; a bcrypt
    stand-in that prefixes the password. *)
Definition env : Env :=
  mkEnv
    (fun a =>
       if String.eqb a "Bearer good" then IdpResponse 200 "identity"
       else if String.eqb a "Bearer a" then IdpResponse 200 "identity of a"
       else if String.eqb a "Bearer odd" then IdpResponse 204 ""
       else if String.eqb a "Bearer expired" then IdpResponse 401 ""
       else IdpUnreachable)
    (fun p => "$2a$10$" ++ p)
    (fun p h => String.eqb ("$2a$10$" ++ p) h).

Definition no_body : Body := mkBody None None None None None None None.

Definition job_body (t d l : JS.value) : Body :=
  mkBody None None None None t d l.

Definition login_body (e p : JS.value) : Body :=
  mkBody None e None p None None None.

Definition hour_ms : Z := 60 * 60 * 1000.

(** The clock of the scenarios: day 100 after the epoch. *)
Definition now : Z := 100 * day_ms.

Definition old_job : Job :=
  mkJob 1 (Some "Clerk") (Some "Files") (Some "http://x/1") (now - 31 * day_ms).
Definition two_days_job : Job :=
  mkJob 2 (Some "Cook") (Some "Soup") (Some "http://x/2") (now - 48 * hour_ms).
Definition boundary_job : Job :=
  mkJob 3 (Some "Guard") (Some "Door") (Some "http://x/3") (now - day_ms).
Definition recent_job : Job :=
  mkJob 4 (Some "Pilot") (Some "Plane") (Some "http://x/4") (now - hour_ms).

Definition account : User :=
  mkUser 5 (Some "A") (Some "a@x.com") (Some "Eng") "$2a$10$pw" false.

Definition world : World :=
  mkWorld [old_job; two_days_job; boundary_job; recent_job] [account] true 6 [].

Definition request (h : JS.value) (b : Body) : Request := mkRequest h b.

(** A posting older than thirty days is all the store holds. *)
Definition stale_world : World := mkWorld [old_job] [] true 2 [].

Definition register_body (n e d p : JS.value) : Body :=
  mkBody n e d p None None None.

(** Scenario 1 of the specification, on an empty store. *)
Definition empty_world : World := mkWorld [] [] true 0 [].

Definition down_world : World :=
  mkWorld [old_job; recent_job] [account] false 6 [].

Definition scenario_registration : Request :=
  request None (register_body (Some "A") (Some "a@x.com") (Some "Eng") (Some "pw")).

Definition good_posting : Request :=
  request (Some "Bearer good") (job_body (Some "T") (Some "D") (Some "L")).

End Fixture.

(* ===================================================================== *)
(** ** The sort of the store                                             *)
(* ===================================================================== *)

Section Sorting.

Lemma insert_desc_In (j k : Job) (l : list Job) :
  In k (insert_desc j l) <-> k = j \/ In k l.
Proof.
  induction l as [|h t IH]; simpl.
  - intuition congruence.
  - destruct (postedAt h <=? postedAt j); simpl; [intuition congruence|].
    rewrite IH. intuition congruence.
Qed.

Lemma sort_postedAt_desc_In (k : Job) (l : list Job) :
  In k (sort_postedAt_desc l) <-> In k l.
Proof.
  induction l as [|h t IH]; simpl; [tauto|].
  rewrite insert_desc_In, IH. intuition congruence.
Qed.

Lemma insert_desc_perm (j : Job) (l : list Job) :
  Permutation (j :: l) (insert_desc j l).
Proof.
  induction l as [|h t IH]; simpl; [apply Permutation_refl|].
  destruct (postedAt h <=? postedAt j); [apply Permutation_refl|].
  eapply perm_trans; [apply perm_swap|]. now apply perm_skip.
Qed.

Lemma sort_postedAt_desc_perm (l : list Job) :
  Permutation l (sort_postedAt_desc l).
Proof.
  induction l as [|h t IH]; simpl; [constructor|].
  eapply perm_trans; [apply perm_skip, IH | apply insert_desc_perm].
Qed.

Lemma insert_desc_descending (j : Job) (l : list Job) :
  descending l -> descending (insert_desc j l).
Proof.
  unfold descending. induction 1 as [|h t Hs IH Hall]; simpl.
  - repeat constructor.
  - destruct (postedAt h <=? postedAt j) eqn:E.
    + apply Z.leb_le in E. constructor; [now constructor|].
      constructor; [unfold newer_or_equal; lia|].
      eapply Forall_impl; [|exact Hall].
      unfold newer_or_equal; intros; lia.
    + apply Z.leb_gt in E. constructor; [exact IH|].
      apply Forall_forall. intros k Hk.
      apply insert_desc_In in Hk. destruct Hk as [->|Hk].
      * unfold newer_or_equal; lia.
      * rewrite Forall_forall in Hall. now apply Hall.
Qed.

Lemma sort_postedAt_desc_descending (l : list Job) :
  descending (sort_postedAt_desc l).
Proof.
  induction l as [|h t IH]; simpl.
  - constructor.
  - now apply insert_desc_descending.
Qed.


Lemma descending_appears_before (l : list Job) (a b : Job) :
  descending l -> appears_before a b l -> postedAt a >= postedAt b.
Proof.
  intros Hs (l1 & l2 & l3 & ->). unfold descending in Hs.
  induction l1 as [|h t IH]; simpl in Hs.
  - apply StronglySorted_inv in Hs. destruct Hs as [_ Hall].
    rewrite Forall_forall in Hall. apply Hall, in_elt.
  - apply StronglySorted_inv in Hs. now apply IH.
Qed.

End Sorting.

(* ===================================================================== *)
(** ** What each handler computes                                        *)
(* ===================================================================== *)

Ltac run_monad :=
  cbv beta iota zeta delta
    [try_catch bind store_op emit send stop next ret throw unbound].

Lemma startsWith_nonempty (s : string) :
  JS.startsWith s "Bearer " = true -> JS.truthy_string s = true.
Proof. destruct s; simpl; [discriminate | reflexivity]. Qed.

Lemma latest_jobs_run (v : variant) (now : Z) (w : World) :
  latest_jobs v now w =
  (Ret (if db_up w
        then mkResponse 200
               (JobList (sort_postedAt_desc
                           (filter (postedAt_gte (now - day_ms)) (jobs w))))
        else mkResponse 500
               (MessageError "Error fetching latest jobs" StoreError)),
   logged JobFind w).
Proof.
  destruct v; cbv [latest_jobs RootIndex.latest_jobs Unnamed000.latest_jobs
                   ApiFirst.latest_jobs ApiSecond.latest_jobs Job_find];
    run_monad; cbn [db_up logged]; destruct (db_up w); reflexivity.
Qed.

Lemma all_jobs_unfiltered_run (v : variant) (now : Z) (w : World) :
  v <> VApiSecond ->
  all_jobs v now w =
  (Ret (if db_up w
        then mkResponse 200 (JobList (jobs w))
        else mkResponse 500 (MessageError "Error fetching jobs" StoreError)),
   logged JobFind w).
Proof.
  intros Hv.
  assert (Hall : forall l : list Job, filter find_all l = l).
  { induction l as [|h t IH]; simpl; [reflexivity | now rewrite IH]. }
  destruct v; try congruence;
    cbv [all_jobs RootIndex.all_jobs Unnamed000.all_jobs ApiFirst.all_jobs
         Job_find unsorted];
    run_monad; cbn [db_up logged]; destruct (db_up w); rewrite ?Hall; reflexivity.
Qed.

Lemma all_jobs_thirty_days_run (now : Z) (w : World) :
  all_jobs VApiSecond now w =
  (Ret (if db_up w
        then mkResponse 200
               (JobList (sort_postedAt_desc
                           (filter (postedAt_gte (now - 30 * day_ms)) (jobs w))))
        else mkResponse 500 (MessageError "Error fetching jobs" StoreError)),
   logged JobFind w).
Proof.
  cbv [all_jobs ApiSecond.all_jobs Job_find]; run_monad; cbn [db_up logged].
  destruct (db_up w); reflexivity.
Qed.

(** The gate, header by header. *)
Lemma verifyToken_rejects_header (v : variant) (env : Env) (req : Request) (w : World) :
  missing_or_malformed (authorization req) ->
  verifyToken v env req w =
  (Ret (inl (mkResponse 401 (Message "Token missing or invalid"))), w).
Proof.
  unfold missing_or_malformed. intros H.
  destruct v; cbv [verifyToken RootIndex.verifyToken Unnamed000.verifyToken
                   ApiFirst.verifyToken ApiSecond.verifyToken];
    destruct (authorization req) as [h|]; try reflexivity;
    rewrite H, orb_true_r; reflexivity.
Qed.

Lemma verifyToken_calls_idp (v : variant) (env : Env) (req : Request) (w : World) (h : string) :
  authorization req = Some h ->
  JS.startsWith h "Bearer " = true ->
  verifyToken v env req w =
  (Ret (gate_verdict v (idp env (presented_credential h))),
   logged (AxiosGetUser (presented_credential h)) w).
Proof.
  intros Hh Hp. pose proof (startsWith_nonempty h Hp) as Ht.
  unfold gate_verdict.
  destruct v; cbv [verifyToken RootIndex.verifyToken Unnamed000.verifyToken
                   ApiFirst.verifyToken ApiSecond.verifyToken];
    rewrite Hh, Hp, Ht; cbn [negb orb];
    fold (presented_credential h);
    unfold axios_get_user; run_monad;
    destruct (idp env (presented_credential h)) as [st data|]; try reflexivity;
    destruct ((200 <=? st) && (st <? 300)); try reflexivity;
    cbn [fst snd]; destruct (st =? 200); reflexivity.
Qed.

Lemma gate_verdict_not_accepted (v : variant) (r : idp_reply) :
  not_accepted r ->
  exists resp, gate_verdict v r = inl resp /\ status resp = 401.
Proof.
  destruct r as [st data|]; simpl; intros H.
  - destruct ((200 <=? st) && (st <? 300)); [|eauto].
    destruct (st =? 200) eqn:E; [apply Z.eqb_eq in E; contradiction | eauto].
  - eauto.
Qed.

Lemma gate_verdict_status (v : variant) (r : idp_reply) (resp : Response) :
  gate_verdict v r = inl resp -> status resp = 401.
Proof.
  destruct r as [st data|]; simpl.
  - destruct ((200 <=? st) && (st <? 300)); [destruct (st =? 200)|];
      intros H; inversion H; reflexivity.
  - intros H; inversion H; reflexivity.
Qed.

(** The route is the gate followed, when it calls [next()], by the
    handler. *)
Lemma add_job_route (v : variant) (env : Env) (now : Z) (req : Request) (w : World) :
  add_job v env now req w =
  match verifyToken v env req w with
  | (Ret (inl response), w') => (Ret response, w')
  | (Ret (inr _), w') => add_job_handler v now req w'
  | (Throw e, w') => (Throw e, w')
  end.
Proof.
  destruct v; cbv [add_job add_job_handler verifyToken RootIndex.add_job
                   Unnamed000.add_job ApiFirst.add_job ApiSecond.add_job bind ret];
    match goal with |- context [?f env req w] => destruct (f env req w) as [[[r|u]|e] w'] end;
    reflexivity.
Qed.

Lemma add_job_handler_invalid (v : variant) (now : Z) (req : Request) (w : World) :
  fields_present (body req) = false ->
  add_job_handler v now req w =
  (Ret (mkResponse 400 (Message "Missing required fields")), w).
Proof.
  unfold fields_present. intros H.
  assert (H' : negb (JS.truthy (body_title (body req)))
               || negb (JS.truthy (body_description (body req)))
               || negb (JS.truthy (body_link (body req))) = true).
  { destruct (JS.truthy (body_title (body req))),
             (JS.truthy (body_description (body req))),
             (JS.truthy (body_link (body req))); simpl in *; congruence. }
  destruct v; cbv [add_job_handler RootIndex.add_job_handler
                   Unnamed000.add_job_handler ApiFirst.add_job_handler
                   ApiSecond.add_job_handler];
    cbv zeta; rewrite H'; reflexivity.
Qed.

Lemma add_job_handler_valid (v : variant) (now : Z) (req : Request) (w : World) :
  fields_present (body req) = true ->
  add_job_handler v now req w =
  if db_up w
  then (Ret (mkResponse 201 (MessageJob (added_message v) (posting now req w))),
        mkWorld (jobs w ++ [posting now req w]) (users w) true
                (S (next_id w)) (JobSave :: trace w))
  else (Ret (mkResponse 500 (MessageError "Error adding job" StoreError)),
        mkWorld (jobs w) (users w) false (S (next_id w)) (JobSave :: trace w)).
Proof.
  unfold fields_present. intros H.
  apply andb_true_iff in H. destruct H as [H H3].
  apply andb_true_iff in H. destruct H as [H1 H2].
  destruct v; cbv [add_job_handler RootIndex.add_job_handler
                   Unnamed000.add_job_handler ApiFirst.add_job_handler
                   ApiSecond.add_job_handler];
    cbv zeta; rewrite H1, H2, H3; cbn [negb orb];
    cbv [Job_save new_Job]; run_monad; cbv [logged posting added_message];
    cbn [db_up jobs users next_id trace];
    destruct (db_up w); reflexivity.
Qed.

Lemma empty_or_missing_falsy (x : JS.value) :
  empty_or_missing x -> JS.truthy x = false.
Proof. intros [-> | ->]; reflexivity. Qed.

Lemma falsy_empty_or_missing (x : JS.value) :
  JS.truthy x = false -> empty_or_missing x.
Proof.
  destruct x as [[|c s]|]; simpl; intros H;
    [right; reflexivity | discriminate | left; reflexivity].
Qed.

(* ===================================================================== *)
(** ** Accounts                                                          *)
(* ===================================================================== *)

Lemma value_eqb_eq (a b : JS.value) : value_eqb a b = true <-> a = b.
Proof.
  destruct a as [x|], b as [y|]; simpl; try (split; congruence).
  rewrite String.eqb_eq. split; congruence.
Qed.

Lemma value_eqb_refl (a : JS.value) : value_eqb a a = true.
Proof. now apply value_eqb_eq. Qed.

(** With distinct emails, looking an account up by its email finds it. *)
Lemma find_by_email (us : list User) (u : User) :
  unique_emails us -> In u us ->
  find (fun x => value_eqb (email x) (email u)) us = Some u.
Proof.
  unfold unique_emails. induction us as [|h t IH]; simpl; [tauto|].
  intros Hnd [-> | Hin].
  - now rewrite value_eqb_refl.
  - inversion Hnd as [|? ? Hh Ht]; subst.
    destruct (value_eqb (email h) (email u)) eqn:E.
    + apply value_eqb_eq in E. exfalso. apply Hh. rewrite E.
      now apply in_map.
    + now apply IH.
Qed.

(** The store keeps the emails distinct through a registration. *)
Lemma User_save_unique (u : User) (w w' : World) (o : outcome unit) :
  unique_emails (users w) ->
  User_save u w = (o, w') ->
  unique_emails (users w').
Proof.
  unfold unique_emails, User_save. run_monad. cbn [db_up logged users].
  intros Hnd. destruct (db_up w).
  - destruct (existsb _ (users w)) eqn:E; intros H; inversion H; subst; simpl;
      [exact Hnd|].
    rewrite map_app. simpl.
    assert (Hfresh : ~ In (email u) (map email (users w))).
    { intros Hin. apply in_map_iff in Hin. destruct Hin as (x & Hx & Hxin).
      assert (existsb (fun v => value_eqb (email v) (email u)) (users w) = true).
      { apply existsb_exists. exists x. split; [exact Hxin|].
        now apply value_eqb_eq. }
      congruence. }
    clear E H. induction (map email (users w)) as [|a l IHl]; simpl.
    + constructor; [simpl; tauto | constructor].
    + inversion Hnd; subst. constructor.
      * intros Hin. apply in_app_or in Hin. simpl in *. intuition congruence.
      * apply IHl; [assumption | simpl in Hfresh; tauto].
  - intros H; inversion H; subst; exact Hnd.
Qed.

Lemma login_found (v : variant) (env : Env) (req : Request) (w : World)
      (u : User) (p : string) :
  db_up w = true ->
  unique_emails (users w) ->
  In u (users w) ->
  body_email (body req) = email u ->
  body_password (body req) = Some p ->
  login v env req w =
  (Ret (if bcrypt_compare env p (password u)
        then if signs_jwt v
             then mkResponse 500
                    (MessageError "Error during login" (ReferenceError "jwt"))
             else mkResponse 200 (MessageUser "Login successful" u)
        else mkResponse 400 (Message "Invalid credentials")),
   logged UserFindOne w).
Proof.
  intros Hup Hnd Hin He Hp.
  pose proof (find_by_email (users w) u Hnd Hin) as Hf.
  destruct v; cbv [login RootIndex.login Unnamed000.login ApiFirst.login
                   ApiSecond.login User_findOne compare signs_jwt];
    cbv zeta; rewrite He, Hp; run_monad; cbn [db_up logged users];
    rewrite Hup, Hf; destruct (bcrypt_compare env p (password u)); reflexivity.
Qed.

(* ===================================================================== *)
(** ** The bearer credential                                             *)
(* ===================================================================== *)

Lemma split_nonempty (s : string) : JS.split s JS.space <> [].
Proof.
  destruct s as [|c s]; simpl; [discriminate|].
  destruct (Ascii.eqb c JS.space); [discriminate|].
  destruct (JS.split s JS.space); discriminate.
Qed.

Lemma split_no_space (tok : string) :
  no_space tok = true -> JS.split tok JS.space = [tok].
Proof.
  induction tok as [|c t IH]; simpl; [reflexivity|].
  intros H. apply andb_true_iff in H. destruct H as [Hc Ht].
  apply negb_true_iff in Hc. rewrite Hc, (IH Ht). reflexivity.
Qed.

Lemma split_at_space (tok more : string) :
  no_space tok = true ->
  JS.split (tok ++ String JS.space more) JS.space = tok :: JS.split more JS.space.
Proof.
  induction tok as [|c t IH]; simpl; [reflexivity|].
  intros H. apply andb_true_iff in H. destruct H as [Hc Ht].
  apply negb_true_iff in Hc. rewrite Hc, (IH Ht). reflexivity.
Qed.

Lemma startsWith_append (p s : string) :
  JS.startsWith s p = true <-> exists rest, s = p ++ rest.
Proof.
  revert s. induction p as [|c p IH]; intros s; simpl.
  - split; [eauto | reflexivity].
  - destruct s as [|d s]; [split; [discriminate | intros (r & Hr); discriminate]|].
    rewrite andb_true_iff, Ascii.eqb_eq, IH. split.
    + intros (-> & r & ->). eauto.
    + intros (r & Hr). inversion Hr; subst. eauto.
Qed.

Lemma startsWith_Bearer (h : string) :
  JS.startsWith h "Bearer " = true -> exists rest, h = "Bearer " ++ rest.
Proof. apply startsWith_append. Qed.

Lemma presented_credential_Bearer (rest : string) :
  presented_credential ("Bearer " ++ rest)
  = "Bearer " ++ hd "" (JS.split rest JS.space).
Proof.
  unfold presented_credential. simpl.
  pose proof (split_nonempty rest) as Hne.
  destruct (JS.split rest JS.space); [contradiction | reflexivity].
Qed.

(* ===================================================================== *)
(** ** The claims                                                        *)
(* ===================================================================== *)

(** C1. A request to the protected operation whose [Authorization]
    header is absent, or does not start with ["Bearer "], is rejected by
    [verifyToken] with 401 "Token missing or invalid", in the gate alone
    and in the [/add-job] route; the world is left as it was, so its trace
    holds no further call to the identity provider. *)
Theorem C1_missing_or_malformed_rejected
        (v : variant) (env : Env) (now : Z) (req : Request) (w : World) :
  missing_or_malformed (authorization req) ->
  verifyToken v env req w
  = (Ret (inl (mkResponse 401 (Message "Token missing or invalid"))), w)
  /\ add_job v env now req w
     = (Ret (mkResponse 401 (Message "Token missing or invalid")), w)
  /\ filter is_idp_call (trace (snd (verifyToken v env req w)))
     = filter is_idp_call (trace w).
Proof.
  intros H. pose proof (verifyToken_rejects_header v env req w H) as Hg.
  split; [exact Hg|]. split.
  - rewrite add_job_route, Hg. reflexivity.
  - rewrite Hg. reflexivity.
Qed.

Lemma C1_witness :
  missing_or_malformed (authorization (Fixture.request (Some "Basic good") Fixture.no_body))
  /\ add_job VApiSecond Fixture.env Fixture.now
             (Fixture.request (Some "Basic good") Fixture.no_body) Fixture.world
     = (Ret (mkResponse 401 (Message "Token missing or invalid")), Fixture.world).
Proof.
  split; [reflexivity|].
  apply (C1_missing_or_malformed_rejected VApiSecond Fixture.env Fixture.now
           (Fixture.request (Some "Basic good") Fixture.no_body) Fixture.world).
  reflexivity.
Defined.

(** C2. When the identity provider does not accept the credential of a
    [POST /add-job] request (it is unreachable, or answers with a status
    other than 200), the response is a 401 and the world differs from the
    one before only by the recorded call to the identity provider: no job
    is stored and the store is not called. *)
Theorem C2_unaccepted_token_no_write
        (v : variant) (env : Env) (now : Z) (req : Request) (w : World) (h : string) :
  authorization req = Some h ->
  JS.startsWith h "Bearer " = true ->
  not_accepted (idp env (presented_credential h)) ->
  exists r w',
    add_job v env now req w = (Ret r, w')
    /\ status r = 401
    /\ jobs w' = jobs w
    /\ users w' = users w
    /\ trace w' = AxiosGetUser (presented_credential h) :: trace w.
Proof.
  intros Hh Hp Hna.
  destruct (gate_verdict_not_accepted v _ Hna) as (resp & Hv & Hs).
  exists resp, (logged (AxiosGetUser (presented_credential h)) w).
  rewrite add_job_route, (verifyToken_calls_idp v env req w h Hh Hp), Hv.
  repeat split; assumption.
Qed.

Lemma C2_witness :
  exists r w',
    add_job VRootIndex Fixture.env Fixture.now
            (Fixture.request (Some "Bearer expired")
               (Fixture.job_body (Some "T") (Some "D") (Some "L")))
            Fixture.world = (Ret r, w')
    /\ status r = 401
    /\ jobs w' = jobs Fixture.world
    /\ users w' = users Fixture.world
    /\ trace w' = AxiosGetUser (presented_credential "Bearer expired")
                    :: trace Fixture.world.
Proof.
  apply (C2_unaccepted_token_no_write VRootIndex Fixture.env Fixture.now
           (Fixture.request (Some "Bearer expired")
              (Fixture.job_body (Some "T") (Some "D") (Some "L")))
           Fixture.world "Bearer expired").
  - reflexivity.
  - reflexivity.
  - vm_compute. discriminate.
Defined.

Lemma C3_counterexample :
  ~ returns_every_posting VApiSecond Fixture.now Fixture.stale_world.
Proof.
  intros (l & Hl & Hall).
  vm_compute in Hl. inversion Hl; subst.
  apply (Hall Fixture.old_job). left. reflexivity.
Qed.

(** C3 (amended). While the store is up, [GET /all-jobs] answers 200.
    In [RootIndex], [Unnamed000] and [ApiFirst] the list is the stored
    collection itself, every posting in stored order, with no filter.  In
    [ApiSecond] the list holds exactly the stored postings with
    [postedAt >= now - 30 days], most recent first. *)
Theorem C3_all_jobs_by_variant (v : variant) (now : Z) (w : World) :
  db_up w = true ->
  exists l,
    all_jobs v now w = (Ret (mkResponse 200 (JobList l)), logged JobFind w)
    /\ (v <> VApiSecond -> l = jobs w)
    /\ (v = VApiSecond ->
        (forall j, In j l <-> In j (jobs w) /\ postedAt j >= now - 30 * day_ms)
        /\ descending l).
Proof.
  intros Hup.
  assert (Hcases : v = VApiSecond \/ v <> VApiSecond)
    by (destruct v; (now left) || (right; discriminate)).
  destruct Hcases as [-> | Hv].
  - eexists. rewrite all_jobs_thirty_days_run, Hup. split; [reflexivity|].
    split; [congruence|]. intros _. split.
    + intros j. rewrite sort_postedAt_desc_In, filter_In.
      unfold postedAt_gte. rewrite Z.leb_le. intuition lia.
    + apply sort_postedAt_desc_descending.
  - exists (jobs w). rewrite (all_jobs_unfiltered_run v now w Hv), Hup.
    split; [reflexivity|]. split; [reflexivity | contradiction].
Qed.

Lemma C3_witness :
  exists l,
    all_jobs VApiSecond Fixture.now Fixture.world
    = (Ret (mkResponse 200 (JobList l)), logged JobFind Fixture.world)
    /\ (VApiSecond <> VApiSecond -> l = jobs Fixture.world)
    /\ (VApiSecond = VApiSecond ->
        (forall j, In j l <->
                   In j (jobs Fixture.world)
                   /\ postedAt j >= Fixture.now - 30 * day_ms)
        /\ descending l).
Proof.
  apply (C3_all_jobs_by_variant VApiSecond Fixture.now Fixture.world).
  reflexivity.
Defined.

(** The three variants without a cutoff do return every stored posting. *)
Lemma all_jobs_returns_every_posting (v : variant) (now : Z) (w : World) :
  v <> VApiSecond -> db_up w = true -> returns_every_posting v now w.
Proof.
  intros Hv Hup. exists (jobs w).
  unfold jobs_returned, answer.
  rewrite (all_jobs_unfiltered_run v now w Hv), Hup. simpl. auto.
Qed.

(** C4. A stored account, its email and its correct password: the
    [/login] of src/index.js answers 500 "Error during login", because
    [jwt] is bound nowhere in the module and the call that signs the token
    throws. *)
Theorem C4_login_correct_password_RootIndex :
  RootIndex.login Fixture.env
    (Fixture.request None (Fixture.login_body (Some "a@x.com") (Some "pw")))
    Fixture.world
  = (Ret (mkResponse 500
            (MessageError "Error during login" (ReferenceError "jwt"))),
     logged UserFindOne Fixture.world).
Proof. reflexivity. Qed.

(** The wrong password is answered as the specification says, in every
    variant. *)
Lemma login_wrong_password (v : variant) (env : Env) (req : Request) (w : World)
      (u : User) (p : string) :
  db_up w = true ->
  unique_emails (users w) ->
  In u (users w) ->
  body_email (body req) = email u ->
  body_password (body req) = Some p ->
  bcrypt_compare env p (password u) = false ->
  login v env req w
  = (Ret (mkResponse 400 (Message "Invalid credentials")), logged UserFindOne w).
Proof.
  intros Hup Hnd Hin He Hp Hc.
  rewrite (login_found v env req w u p Hup Hnd Hin He Hp), Hc. reflexivity.
Qed.

(** The correct password: 200 in [ApiSecond], 500 in the three variants
    that sign a token. *)
Lemma login_correct_password (v : variant) (env : Env) (req : Request) (w : World)
      (u : User) (p : string) :
  db_up w = true ->
  unique_emails (users w) ->
  In u (users w) ->
  body_email (body req) = email u ->
  body_password (body req) = Some p ->
  bcrypt_compare env p (password u) = true ->
  status_returned (login v env req) w = Some (if signs_jwt v then 500 else 200).
Proof.
  intros Hup Hnd Hin He Hp Hc. unfold status_returned, answer.
  rewrite (login_found v env req w u p Hup Hnd Hin He Hp), Hc.
  destruct (signs_jwt v); reflexivity.
Qed.

(** C5. While the store is up, [GET /latest-jobs] answers 200 with a
    list that holds a stored posting if and only if its [postedAt] is at
    least [now - 24h]; a posting with [postedAt] equal to [now - 24h] is in
    the list. *)
Theorem C5_latest_jobs_inclusive_window (v : variant) (now : Z) (w : World) :
  db_up w = true ->
  exists l,
    latest_jobs v now w = (Ret (mkResponse 200 (JobList l)), logged JobFind w)
    /\ (forall j, In j l <-> In j (jobs w) /\ postedAt j >= now - day_ms)
    /\ (forall j, In j (jobs w) -> postedAt j = now - day_ms -> In j l).
Proof.
  intros Hup. eexists. rewrite latest_jobs_run, Hup.
  split; [reflexivity|].
  assert (Hiff : forall j,
             In j (sort_postedAt_desc
                     (filter (postedAt_gte (now - day_ms)) (jobs w)))
             <-> In j (jobs w) /\ postedAt j >= now - day_ms).
  { intros j. rewrite sort_postedAt_desc_In, filter_In.
    unfold postedAt_gte. rewrite Z.leb_le. intuition lia. }
  split; [exact Hiff|].
  intros j Hin Heq. apply Hiff. split; [exact Hin | lia].
Qed.

Lemma C5_witness :
  exists l,
    latest_jobs VRootIndex Fixture.now Fixture.world
    = (Ret (mkResponse 200 (JobList l)), logged JobFind Fixture.world)
    /\ (forall j, In j l <->
                  In j (jobs Fixture.world) /\ postedAt j >= Fixture.now - day_ms)
    /\ (forall j, In j (jobs Fixture.world) ->
                  postedAt j = Fixture.now - day_ms -> In j l).
Proof.
  apply (C5_latest_jobs_inclusive_window VRootIndex Fixture.now Fixture.world).
  reflexivity.
Defined.

(** Scenario 5 of the specification, with the boundary posting added. *)
Example latest_jobs_scenario :
  jobs_returned (latest_jobs VRootIndex Fixture.now) Fixture.world
  = Some [Fixture.recent_job; Fixture.boundary_job].
Proof. reflexivity. Qed.

(** C6. In the list [GET /latest-jobs] answers with, a posting that
    appears before another is at least as recent: descending [postedAt]. *)
Theorem C6_latest_jobs_descending
        (v : variant) (now : Z) (w : World) (l : list Job) (a b : Job) :
  jobs_returned (latest_jobs v now) w = Some l ->
  appears_before a b l ->
  postedAt a >= postedAt b.
Proof.
  unfold jobs_returned, answer. rewrite latest_jobs_run. cbn [fst].
  destruct (db_up w); cbn [listed json status]; [|discriminate].
  change (200 =? 200) with true. cbv iota.
  intros Hl. inversion Hl; subst. 
  apply descending_appears_before, sort_postedAt_desc_descending.
Qed.

Lemma C6_witness :
  jobs_returned (latest_jobs VApiFirst Fixture.now) Fixture.world
  = Some [Fixture.recent_job; Fixture.boundary_job]
  /\ appears_before Fixture.recent_job Fixture.boundary_job
                    [Fixture.recent_job; Fixture.boundary_job]
  /\ postedAt Fixture.recent_job >= postedAt Fixture.boundary_job.
Proof.
  assert (H1 : jobs_returned (latest_jobs VApiFirst Fixture.now) Fixture.world
               = Some [Fixture.recent_job; Fixture.boundary_job])
    by reflexivity.
  assert (H2 : appears_before Fixture.recent_job Fixture.boundary_job
                              [Fixture.recent_job; Fixture.boundary_job])
    by (exists [], [], []; reflexivity).
  split; [exact H1|]. split; [exact H2|].
  exact (C6_latest_jobs_descending VApiFirst Fixture.now Fixture.world
           [Fixture.recent_job; Fixture.boundary_job]
           Fixture.recent_job Fixture.boundary_job H1 H2).
Defined.

Lemma C7_counterexample :
  ~ presents_remainder VRootIndex Fixture.env "a b" Fixture.world.
Proof.
  unfold presents_remainder. vm_compute. intros H. inversion H.
Qed.

(** C7 (amended). For a header ["Bearer " ++ rest], the gate calls the
    identity provider once, presenting ["Bearer "] followed by the part of
    [rest] before its first space: the whole of [rest] when it holds no
    space, and [tok] when [rest] is [tok], a space, and anything more. *)
Theorem C7_presented_credential
        (v : variant) (env : Env) (req : Request) (w : World) (rest : string) :
  authorization req = Some ("Bearer " ++ rest) ->
  trace (snd (verifyToken v env req w))
  = AxiosGetUser (presented_credential ("Bearer " ++ rest)) :: trace w
  /\ (no_space rest = true ->
      presented_credential ("Bearer " ++ rest) = "Bearer " ++ rest)
  /\ (forall tok more,
        no_space tok = true ->
        rest = tok ++ String JS.space more ->
        presented_credential ("Bearer " ++ rest) = "Bearer " ++ tok).
Proof.
  intros Hh. split; [|split].
  - rewrite (verifyToken_calls_idp v env req w _ Hh eq_refl). reflexivity.
  - intros Hns. rewrite presented_credential_Bearer, (split_no_space rest Hns).
    reflexivity.
  - intros tok more Hns ->.
    rewrite presented_credential_Bearer, (split_at_space tok more Hns).
    reflexivity.
Qed.

Lemma C7_witness :
  trace (snd (verifyToken VUnnamed000 Fixture.env
                (Fixture.request (Some ("Bearer " ++ "a b")) Fixture.no_body)
                Fixture.world))
  = AxiosGetUser (presented_credential ("Bearer " ++ "a b")) :: trace Fixture.world
  /\ (no_space "a b" = true ->
      presented_credential ("Bearer " ++ "a b") = "Bearer " ++ "a b")
  /\ (forall tok more,
        no_space tok = true ->
        "a b" = tok ++ String JS.space more ->
        presented_credential ("Bearer " ++ "a b") = "Bearer " ++ tok).
Proof.
  apply (C7_presented_credential VUnnamed000 Fixture.env
           (Fixture.request (Some ("Bearer " ++ "a b")) Fixture.no_body)
           Fixture.world "a b").
  reflexivity.
Defined.

Example presented_credential_cut :
  presented_credential "Bearer a b" = "Bearer a".
Proof. reflexivity. Qed.

Lemma C8_counterexample :
  ~ answers_400 VRootIndex Fixture.env Fixture.now
      (Fixture.request None (Fixture.job_body None (Some "D") (Some "L")))
      Fixture.world.
Proof.
  unfold answers_400. vm_compute. intros H. inversion H.
Qed.

(** C8 (amended). A [POST /add-job] request in which [title],
    [description] or [link] is empty or missing: when its bearer
    credential is accepted by the identity provider, the answer is 400
    "Missing required fields" and the world differs only by the recorded
    call to the identity provider; when the request does not pass the
    gate (the header is absent or malformed, or the identity provider does
    not accept the credential) the answer is 401; in every case no job is
    stored and the store is not called. *)
Theorem C8_missing_fields_rejected
        (v : variant) (env : Env) (now : Z) (req : Request) (w : World) :
  empty_or_missing (body_title (body req))
  \/ empty_or_missing (body_description (body req))
  \/ empty_or_missing (body_link (body req)) ->
  (forall h data,
      authorization req = Some h ->
      JS.startsWith h "Bearer " = true ->
      idp env (presented_credential h) = IdpResponse 200 data ->
      add_job v env now req w
      = (Ret (mkResponse 400 (Message "Missing required fields")),
         logged (AxiosGetUser (presented_credential h)) w))
  /\ (missing_or_malformed (authorization req) ->
      add_job v env now req w
      = (Ret (mkResponse 401 (Message "Token missing or invalid")), w))
  /\ (forall h,
        authorization req = Some h ->
        JS.startsWith h "Bearer " = true ->
        not_accepted (idp env (presented_credential h)) ->
        exists r,
          add_job v env now req w
          = (Ret r, logged (AxiosGetUser (presented_credential h)) w)
          /\ status r = 401)
  /\ exists r w',
       add_job v env now req w = (Ret r, w')
       /\ (status r = 400 \/ status r = 401)
       /\ jobs w' = jobs w
       /\ filter is_store_call (trace w') = filter is_store_call (trace w).
Proof.
  intros Hmiss.
  assert (Hf : fields_present (body req) = false).
  { unfold fields_present.
    destruct Hmiss as [H | [H | H]]; apply empty_or_missing_falsy in H;
      rewrite H; rewrite ?andb_false_r; reflexivity. }
  split.
  - intros h data Hh Hp Hidp.
    rewrite add_job_route, (verifyToken_calls_idp v env req w h Hh Hp), Hidp.
    cbn [gate_verdict]. change ((200 <=? 200) && (200 <? 300)) with true.
    change (200 =? 200) with true. cbv iota.
    now apply add_job_handler_invalid.
  - split; [|split].
    { intros Hbad.
      rewrite add_job_route, (verifyToken_rejects_header v env req w Hbad).
      reflexivity. }
    { intros h Hh Hp Hna.
      destruct (gate_verdict_not_accepted v _ Hna) as (resp & Hv & Hs).
      exists resp.
      rewrite add_job_route, (verifyToken_calls_idp v env req w h Hh Hp), Hv.
      split; [reflexivity | exact Hs]. }
    rewrite add_job_route.
    destruct (authorization req) as [h|] eqn:Hh.
    + destruct (JS.startsWith h "Bearer ") eqn:Hp.
      * rewrite (verifyToken_calls_idp v env req w h Hh Hp).
        destruct (gate_verdict v (idp env (presented_credential h)))
          as [resp | data] eqn:Hv.
        -- exists resp, (logged (AxiosGetUser (presented_credential h)) w).
           apply gate_verdict_status in Hv. repeat split; auto.
        -- rewrite (add_job_handler_invalid v now req _ Hf).
           eexists _, _. repeat split; auto.
      * rewrite (verifyToken_rejects_header v env req w)
          by (rewrite Hh; exact Hp).
        eexists _, _. repeat split; auto.
    + rewrite (verifyToken_rejects_header v env req w)
        by (rewrite Hh; exact I).
      eexists _, _. repeat split; auto.
Qed.

Lemma C8_witness :
  add_job VApiSecond Fixture.env Fixture.now
          (Fixture.request (Some "Bearer good")
             (Fixture.job_body (Some "T") (Some "") (Some "L")))
          Fixture.world
  = (Ret (mkResponse 400 (Message "Missing required fields")),
     logged (AxiosGetUser (presented_credential "Bearer good")) Fixture.world).
Proof.
  refine (proj1 (C8_missing_fields_rejected VApiSecond Fixture.env Fixture.now
                   (Fixture.request (Some "Bearer good")
                      (Fixture.job_body (Some "T") (Some "") (Some "L")))
                   Fixture.world _)
                "Bearer good" "identity" _ _ _).
  - right. left. right. reflexivity.
  - reflexivity.
  - reflexivity.
  - reflexivity.
Defined.

(** With every field present and the credential accepted, the posting is
    stored: the rejections above are not all the route can do. *)
Example add_job_scenario :
  add_job VRootIndex Fixture.env Fixture.now
          (Fixture.request (Some "Bearer good")
             (Fixture.job_body (Some "T") (Some "D") (Some "L")))
          Fixture.world
  = (Ret (mkResponse 201
            (MessageJob "Job added successfully!"
               (mkJob 6 (Some "T") (Some "D") (Some "L") Fixture.now))),
     mkWorld (jobs Fixture.world
              ++ [mkJob 6 (Some "T") (Some "D") (Some "L") Fixture.now])
             (users Fixture.world) true 7
             [JobSave; AxiosGetUser "Bearer good"]).
Proof. reflexivity. Qed.

(** At one reading of the clock, two calls of [GET /latest-jobs] with
    nothing written in between give the same response; the first call
    leaves both collections as they were. *)
Lemma latest_jobs_twice_same_clock (v : variant) (now : Z) (w : World) :
  exists r w1 w2,
    latest_jobs v now w = (Ret r, w1)
    /\ latest_jobs v now w1 = (Ret r, w2)
    /\ jobs w1 = jobs w
    /\ users w1 = users w.
Proof.
  eexists _, _, _. rewrite !latest_jobs_run. cbn [db_up jobs logged].
  repeat split.
Qed.

(** Each call reads the clock itself.  The answers agree when the clock
    moves between the calls, as long as no stored posting crosses the
    lower bound of the window meanwhile. *)
Lemma latest_jobs_twice_moving_clock (v : variant) (t1 t2 : Z) (w : World) :
  (forall j, In j (jobs w) ->
             (t1 - day_ms <=? postedAt j) = (t2 - day_ms <=? postedAt j)) ->
  answer (latest_jobs v t2) (snd (latest_jobs v t1 w))
  = answer (latest_jobs v t1) w.
Proof.
  intros H. unfold answer. rewrite !latest_jobs_run. cbn [fst snd db_up jobs logged].
  destruct (db_up w); [|reflexivity].
  rewrite (filter_ext_in (postedAt_gte (t2 - day_ms)) (postedAt_gte (t1 - day_ms)));
    [reflexivity|].
  intros j Hj. unfold postedAt_gte. symmetry. now apply H.
Qed.

(** One millisecond later the boundary posting is out of the window. *)
Example latest_jobs_one_ms_later :
  jobs_returned (latest_jobs VRootIndex (Fixture.now + 1)) Fixture.world
  = Some [Fixture.recent_job].
Proof. reflexivity. Qed.

Lemma C9_counterexample :
  ~ identical_twice VRootIndex Fixture.now (Fixture.now + 1) Fixture.world.
Proof.
  unfold identical_twice. vm_compute. intros H. inversion H.
Qed.

(** C9 (amended). Two calls of [GET /latest-jobs] in succession, with
    nothing written in between, the first reading the clock at [t1] and
    the second at [t2 >= t1]: when no stored posting has its [postedAt] in
    the interval from [t1 - 24h] (included) to [t2 - 24h] (excluded), both
    calls give the same response, hence the same ordered sequence, and the
    first call leaves both collections as they were.  In particular this
    holds whenever the two readings are equal. *)
Theorem C9_latest_jobs_twice_moving_clock
        (v : variant) (t1 t2 : Z) (w : World) :
  t1 <= t2 ->
  (forall j, In j (jobs w) ->
             ~ (t1 - day_ms <= postedAt j < t2 - day_ms)) ->
  exists r w1 w2,
    latest_jobs v t1 w = (Ret r, w1)
    /\ latest_jobs v t2 w1 = (Ret r, w2)
    /\ jobs w1 = jobs w
    /\ users w1 = users w.
Proof.
  intros Ht Hgap.
  assert (Hsame : filter (postedAt_gte (t2 - day_ms)) (jobs w)
                  = filter (postedAt_gte (t1 - day_ms)) (jobs w)).
  { apply filter_ext_in. intros j Hj. specialize (Hgap j Hj).
    unfold postedAt_gte.
    destruct (t2 - day_ms <=? postedAt j) eqn:E2;
      destruct (t1 - day_ms <=? postedAt j) eqn:E1; try reflexivity;
      rewrite ?Z.leb_le, ?Z.leb_gt in *; lia. }
  eexists _, (logged JobFind w), _. rewrite !latest_jobs_run.
  cbn [db_up jobs users logged]. rewrite Hsame. repeat split.
Qed.

Lemma C9_witness :
  exists r w1 w2,
    latest_jobs VApiSecond (Fixture.now + 1) Fixture.world = (Ret r, w1)
    /\ latest_jobs VApiSecond (Fixture.now + 2) w1 = (Ret r, w2)
    /\ jobs w1 = jobs Fixture.world
    /\ users w1 = users Fixture.world.
Proof.
  apply (C9_latest_jobs_twice_moving_clock VApiSecond (Fixture.now + 1)
           (Fixture.now + 2) Fixture.world).
  - vm_compute. discriminate.
  - intros j [<- | [<- | [<- | [<- | []]]]] [H1 H2];
      vm_compute in H1, H2; first [now apply H1 | discriminate H2].
Defined.

(** C10. The four variants of [GET /latest-jobs] are the same function of
    the clock and the world; the list they answer with is the one of the
    specification (inclusive 24-hour window, most recent first), with 200
    while the store is up and 500 when it is down; the list is a
    rearrangement of the postings inside the window, in descending order. *)
Theorem C10_latest_jobs_variants_agree (v1 v2 : variant) (now : Z) (w : World) :
  latest_jobs v1 now w = latest_jobs v2 now w
  /\ jobs_returned (latest_jobs v1 now) w = spec_latest_jobs now w
  /\ status_returned (latest_jobs v1 now) w
     = Some (if db_up w then 200 else 500)
  /\ meets_latest_jobs_spec now w (jobs_returned (latest_jobs v1 now) w).
Proof.
  split; [|split; [|split]].
  - rewrite !latest_jobs_run. reflexivity.
  - unfold jobs_returned, answer, spec_latest_jobs. rewrite latest_jobs_run.
    cbn [fst]. destruct (db_up w); reflexivity.
  - unfold status_returned, answer. rewrite latest_jobs_run.
    cbn [fst]. destruct (db_up w); reflexivity.
  - unfold meets_latest_jobs_spec, jobs_returned, answer.
    rewrite latest_jobs_run. cbn [fst].
    destruct (db_up w) eqn:Hup; simpl; [|reflexivity].
    split; [reflexivity|]. split.
    + apply sort_postedAt_desc_perm.
    + apply sort_postedAt_desc_descending.
Qed.

(* ===================================================================== *)
(** ** Further properties: the gate                                      *)
(* ===================================================================== *)

Lemma gate_verdict_next (v : variant) (r : idp_reply) (data : string) :
  gate_verdict v r = inr data <-> r = IdpResponse 200 data.
Proof.
  split.
  - destruct r as [st d|]; simpl; [|discriminate].
    destruct ((200 <=? st) && (st <? 300)); [|discriminate].
    destruct (st =? 200) eqn:E; [|discriminate].
    apply Z.eqb_eq in E. intros H. inversion H. now subst.
  - intros ->. reflexivity.
Qed.

(** The gate on any request. *)
Lemma verifyToken_run (v : variant) (env : Env) (req : Request) (w : World) :
  verifyToken v env req w =
  match authorization req with
  | Some h =>
      if JS.startsWith h "Bearer "
      then (Ret (gate_verdict v (idp env (presented_credential h))),
            logged (AxiosGetUser (presented_credential h)) w)
      else (Ret (inl (mkResponse 401 (Message "Token missing or invalid"))), w)
  | None => (Ret (inl (mkResponse 401 (Message "Token missing or invalid"))), w)
  end.
Proof.
  destruct (authorization req) as [h|] eqn:Hh.
  - destruct (JS.startsWith h "Bearer ") eqn:Hp.
    + now apply verifyToken_calls_idp.
    + apply verifyToken_rejects_header. rewrite Hh. exact Hp.
  - apply verifyToken_rejects_header. rewrite Hh. exact I.
Qed.

(** X1. The gate calls [next()] with [req.user = data] exactly when the
    header starts with ["Bearer "] and the identity provider answers 200
    with [data] to the credential extracted from it. *)
Theorem verifyToken_next_iff_accepted
        (v : variant) (env : Env) (req : Request) (w : World) (data : string) :
  fst (verifyToken v env req w) = Ret (inr data)
  <-> credential_accepted env req data.
Proof.
  rewrite verifyToken_run. unfold credential_accepted. split.
  - destruct (authorization req) as [h|]; [|discriminate].
    destruct (JS.startsWith h "Bearer ") eqn:Hp; [|discriminate].
    cbn [fst]. intros H. exists h. repeat split; auto.
    apply (gate_verdict_next v). congruence.
  - intros (h & -> & -> & Hr). cbn [fst]. f_equal.
    now apply gate_verdict_next.
Qed.

(** X2. Whatever the request, the gate returns (it never throws), it
    either calls [next()] or answers 401, it leaves both collections
    alone and makes no store call, and it calls the identity provider at
    most once. *)
Theorem verifyToken_effects (v : variant) (env : Env) (req : Request) (w : World) :
  exists res w',
    verifyToken v env req w = (Ret res, w')
    /\ (forall r, res = inl r -> status r = 401)
    /\ collections w' = collections w
    /\ store_calls w' = store_calls w
    /\ (trace w' = trace w \/ exists c, trace w' = AxiosGetUser c :: trace w).
Proof.
  rewrite verifyToken_run.
  destruct (authorization req) as [h|];
    [destruct (JS.startsWith h "Bearer ")|]; eexists _, _;
    (split; [reflexivity|]); repeat split;
    try (intros r Hr; inversion Hr; subst; reflexivity);
    try (left; reflexivity).
  - intros r Hr. now apply gate_verdict_status in Hr.
  - right. eexists. reflexivity.
Qed.

Lemma split_head_no_space (s : string) :
  no_space (hd "" (JS.split s JS.space)) = true.
Proof.
  induction s as [|c s IH]; simpl; [reflexivity|].
  destruct (Ascii.eqb c JS.space) eqn:E; [reflexivity|].
  destruct (JS.split s JS.space) as [|piece pieces]; simpl in *.
  - now rewrite E.
  - now rewrite E, IH.
Qed.

Lemma split_head_prefix (s : string) :
  exists more, s = hd "" (JS.split s JS.space) ++ more.
Proof.
  induction s as [|c s IH]; simpl; [exists ""; reflexivity|].
  destruct (Ascii.eqb c JS.space) eqn:E; [eexists; reflexivity|].
  destruct IH as (more & Hm).
  pose proof (split_nonempty s) as Hne.
  destruct (JS.split s JS.space) as [|piece pieces]; [contradiction|].
  simpl in *. exists more. now rewrite <- Hm.
Qed.

(** X3. For a header that starts with ["Bearer "], the credential
    presented to the identity provider is ["Bearer "] followed by a token
    that holds no space and is a prefix of the rest of the header. *)
Theorem presented_token_no_space (h : string) :
  JS.startsWith h "Bearer " = true ->
  exists tok more,
    presented_credential h = "Bearer " ++ tok
    /\ no_space tok = true
    /\ h = "Bearer " ++ tok ++ more.
Proof.
  intros Hp. apply startsWith_Bearer in Hp. destruct Hp as (rest & ->).
  destruct (split_head_prefix rest) as (more & Hm).
  exists (hd "" (JS.split rest JS.space)), more.
  split; [apply presented_credential_Bearer|].
  split; [apply split_head_no_space|].
  now rewrite <- Hm.
Qed.

Lemma presented_token_no_space_witness :
  exists tok more,
    presented_credential "Bearer abc def" = "Bearer " ++ tok
    /\ no_space tok = true
    /\ "Bearer abc def" = "Bearer " ++ tok ++ more.
Proof.
  apply (presented_token_no_space "Bearer abc def"). reflexivity.
Defined.

(** X4. A header that is ["Bearer "] alone, or has a space right after
    the prefix, passes the prefix check: the gate still calls the identity
    provider, with an empty token, and answers by its verdict. *)
Theorem empty_token_is_verified
        (v : variant) (env : Env) (req : Request) (w : World) (rest : string) :
  authorization req = Some ("Bearer " ++ rest) ->
  rest = "" \/ (exists more, rest = String JS.space more) ->
  verifyToken v env req w
  = (Ret (gate_verdict v (idp env "Bearer ")), logged (AxiosGetUser "Bearer ") w).
Proof.
  intros Hh Hrest.
  rewrite (verifyToken_calls_idp v env req w _ Hh eq_refl).
  assert (Hc : presented_credential ("Bearer " ++ rest) = "Bearer ").
  { rewrite presented_credential_Bearer.
    destruct Hrest as [-> | (more & ->)]; reflexivity. }
  now rewrite Hc.
Qed.

Lemma empty_token_is_verified_witness :
  verifyToken VApiFirst Fixture.env
    (Fixture.request (Some ("Bearer " ++ " good")) Fixture.no_body) Fixture.world
  = (Ret (gate_verdict VApiFirst (idp Fixture.env "Bearer ")),
     logged (AxiosGetUser "Bearer ") Fixture.world).
Proof.
  apply (empty_token_is_verified VApiFirst Fixture.env
           (Fixture.request (Some ("Bearer " ++ " good")) Fixture.no_body)
           Fixture.world " good").
  - reflexivity.
  - right. exists "good". reflexivity.
Defined.

Lemma verifyToken_next_iff_accepted_witness :
  credential_accepted Fixture.env Fixture.good_posting "identity".
Proof.
  apply (proj1 (verifyToken_next_iff_accepted VRootIndex Fixture.env
                  Fixture.good_posting Fixture.world "identity")).
  reflexivity.
Defined.

(* ===================================================================== *)
(** ** Further properties: creating a posting                            *)
(* ===================================================================== *)

(** The route on any request. *)
Lemma add_job_run (v : variant) (env : Env) (now : Z) (req : Request) (w : World) :
  add_job v env now req w =
  match authorization req with
  | Some h =>
      if JS.startsWith h "Bearer "
      then match gate_verdict v (idp env (presented_credential h)) with
           | inl r => (Ret r, logged (AxiosGetUser (presented_credential h)) w)
           | inr _ => add_job_handler v now req
                        (logged (AxiosGetUser (presented_credential h)) w)
           end
      else (Ret (mkResponse 401 (Message "Token missing or invalid")), w)
  | None => (Ret (mkResponse 401 (Message "Token missing or invalid")), w)
  end.
Proof.
  rewrite add_job_route, verifyToken_run.
  destruct (authorization req) as [h|];
    [destruct (JS.startsWith h "Bearer ")|]; reflexivity.
Qed.

(** Past the gate: with an accepted credential the route is the handler,
    run after the recorded call to the identity provider. *)
Lemma add_job_accepted (v : variant) (env : Env) (now : Z) (req : Request) (w : World)
      (h data : string) :
  authorization req = Some h ->
  JS.startsWith h "Bearer " = true ->
  idp env (presented_credential h) = IdpResponse 200 data ->
  add_job v env now req w
  = add_job_handler v now req (logged (AxiosGetUser (presented_credential h)) w).
Proof.
  intros Hh Hp Hidp. rewrite add_job_run, Hh, Hp, Hidp.
  replace (gate_verdict v (IdpResponse 200 data)) with (@inr Response _ data)
    by (symmetry; now apply gate_verdict_next).
  reflexivity.
Qed.

(** X5. An accepted credential, the three fields present and the store
    up: [/add-job] answers 201 with the new posting, whose [postedAt] is
    the clock reading, and appends exactly that posting to the collection;
    the accounts are untouched, and the calls made are one to the identity
    provider, then one save. *)
Theorem add_job_success
        (v : variant) (env : Env) (now : Z) (req : Request) (w : World)
        (h data : string) :
  authorization req = Some h ->
  JS.startsWith h "Bearer " = true ->
  idp env (presented_credential h) = IdpResponse 200 data ->
  fields_present (body req) = true ->
  db_up w = true ->
  add_job v env now req w
  = (Ret (mkResponse 201 (MessageJob (added_message v) (posting now req w))),
     mkWorld (jobs w ++ [posting now req w]) (users w) true (S (next_id w))
             (JobSave :: AxiosGetUser (presented_credential h) :: trace w)).
Proof.
  intros Hh Hp Hidp Hf Hup.
  rewrite (add_job_accepted v env now req w h data Hh Hp Hidp).
  rewrite (add_job_handler_valid v now req _ Hf).
  cbn [db_up logged jobs users next_id trace]. now rewrite Hup.
Qed.

Lemma add_job_success_witness :
  add_job VApiSecond Fixture.env Fixture.now Fixture.good_posting Fixture.world
  = (Ret (mkResponse 201
            (MessageJob (added_message VApiSecond)
               (posting Fixture.now Fixture.good_posting Fixture.world))),
     mkWorld (jobs Fixture.world
              ++ [posting Fixture.now Fixture.good_posting Fixture.world])
             (users Fixture.world) true (S (next_id Fixture.world))
             (JobSave :: AxiosGetUser (presented_credential "Bearer good")
                      :: trace Fixture.world)).
Proof.
  apply (add_job_success VApiSecond Fixture.env Fixture.now Fixture.good_posting
           Fixture.world "Bearer good" "identity"); reflexivity.
Defined.

Lemma add_job_201 (v : variant) (env : Env) (now : Z) (req : Request) (w : World) :
  status_returned (add_job v env now req) w = Some 201 ->
  (exists data, credential_accepted env req data)
  /\ fields_present (body req) = true
  /\ db_up w = true.
Proof.
  unfold status_returned, answer, credential_accepted.
  rewrite add_job_run.
  destruct (authorization req) as [h|]; [|discriminate].
  destruct (JS.startsWith h "Bearer ") eqn:Hp; [|discriminate].
  destruct (gate_verdict v (idp env (presented_credential h)))
    as [r | data] eqn:Hv.
  - apply gate_verdict_status in Hv. cbn [fst option_map]. congruence.
  - apply gate_verdict_next in Hv.
    destruct (fields_present (body req)) eqn:Hf.
    + rewrite (add_job_handler_valid v now req _ Hf). cbn [db_up logged].
      destruct (db_up w); [|discriminate].
      intros _. split; [|split; reflexivity].
      exists data, h. repeat split; assumption.
    + rewrite (add_job_handler_invalid v now req _ Hf). discriminate.
Qed.

(** X6. For a request whose [title], [description] and [link] are each
    a text value or absent, [/add-job] answers 201 exactly when the
    credential is accepted, the three fields are non-empty text and the
    store is up. *)
Theorem add_job_201_iff
        (v : variant) (env : Env) (now : Z) (req : Request) (w : World) :
  status_returned (add_job v env now req) w = Some 201
  <-> (exists data, credential_accepted env req data)
      /\ fields_present (body req) = true
      /\ db_up w = true.
Proof.
  split; [apply add_job_201|].
  intros ((data & h & Hh & Hp & Hidp) & Hf & Hup).
  unfold status_returned, answer.
  rewrite (add_job_accepted v env now req w h data Hh Hp Hidp).
  rewrite (add_job_handler_valid v now req _ Hf).
  cbn [db_up logged fst]. now rewrite Hup.
Qed.

Lemma add_job_201_iff_witness :
  status_returned (add_job VRootIndex Fixture.env Fixture.now Fixture.good_posting)
                  Fixture.world = Some 201.
Proof.
  apply (proj2 (add_job_201_iff VRootIndex Fixture.env Fixture.now
                  Fixture.good_posting Fixture.world)).
  split; [|split; reflexivity].
  exists "identity", "Bearer good". repeat split; reflexivity.
Defined.

(** X7. Whatever the request, [/add-job] returns a response with status
    201, 400, 401 or 500 and never touches the accounts; the stored
    postings are the ones before, in their order, followed by the new one
    when the status is 201 and by nothing otherwise. *)
Theorem add_job_creates_iff_201
        (v : variant) (env : Env) (now : Z) (req : Request) (w : World) :
  exists r w',
    add_job v env now req w = (Ret r, w')
    /\ users w' = users w
    /\ ((status r = 201 /\ jobs w' = (jobs w ++ [posting now req w])%list)
        \/ ((status r = 400 \/ status r = 401 \/ status r = 500)
            /\ jobs w' = jobs w)).
Proof.
  rewrite add_job_run.
  destruct (authorization req) as [h|];
    [destruct (JS.startsWith h "Bearer ")|];
    try (eexists _, _; split; [reflexivity|]; split; [reflexivity|];
         right; split; [right; left|]; reflexivity).
  destruct (gate_verdict v (idp env (presented_credential h)))
    as [r | data] eqn:Hv.
  - apply gate_verdict_status in Hv. eexists _, _.
    split; [reflexivity|]. split; [reflexivity|]. right. split; auto.
  - destruct (fields_present (body req)) eqn:Hf.
    + rewrite (add_job_handler_valid v now req _ Hf). cbn [db_up logged].
      destruct (db_up w); eexists _, _;
        (split; [reflexivity|]); (split; [reflexivity|]).
      * left. split; reflexivity.
      * right. split; [right; right|]; reflexivity.
    + rewrite (add_job_handler_invalid v now req _ Hf). eexists _, _.
      split; [reflexivity|]. split; [reflexivity|].
      right. split; [left|]; reflexivity.
Qed.

(** X8. An accepted credential and the three fields present, but the
    store down: [/add-job] answers 500 "Error adding job" after one
    attempted save, and both collections are as before. *)
Theorem add_job_store_down
        (v : variant) (env : Env) (now : Z) (req : Request) (w : World)
        (data : string) :
  credential_accepted env req data ->
  fields_present (body req) = true ->
  db_up w = false ->
  exists w',
    add_job v env now req w
    = (Ret (mkResponse 500 (MessageError "Error adding job" StoreError)), w')
    /\ collections w' = collections w
    /\ store_calls w' = JobSave :: store_calls w.
Proof.
  intros (h & Hh & Hp & Hidp) Hf Hup.
  rewrite (add_job_accepted v env now req w h data Hh Hp Hidp).
  rewrite (add_job_handler_valid v now req _ Hf).
  cbn [db_up logged jobs users next_id trace]. rewrite Hup.
  eexists. split; [reflexivity|]. split; reflexivity.
Qed.

Lemma add_job_store_down_witness :
  exists w',
    add_job VUnnamed000 Fixture.env Fixture.now Fixture.good_posting
            Fixture.down_world
    = (Ret (mkResponse 500 (MessageError "Error adding job" StoreError)), w')
    /\ collections w' = collections Fixture.down_world
    /\ store_calls w' = JobSave :: store_calls Fixture.down_world.
Proof.
  apply (add_job_store_down VUnnamed000 Fixture.env Fixture.now
           Fixture.good_posting Fixture.down_world "identity").
  - exists "Bearer good". repeat split; reflexivity.
  - reflexivity.
  - reflexivity.
Defined.

(** X9. A posting just created is listed: after a successful
    [/add-job] at clock [now], in any variant, [/latest-jobs] asked up to
    24 hours later, and [/all-jobs] asked then, both answer with a list
    that holds the new posting, in any variant. *)
Theorem add_job_then_listed
        (v v' : variant) (env : Env) (now t : Z) (req : Request) (w : World) :
  status_returned (add_job v env now req) w = Some 201 ->
  t - day_ms <= now ->
  exists l l',
    jobs_returned (latest_jobs v' t) (snd (add_job v env now req w)) = Some l
    /\ In (posting now req w) l
    /\ jobs_returned (all_jobs v' t) (snd (add_job v env now req w)) = Some l'
    /\ In (posting now req w) l'.
Proof.
  intros H201 Ht.
  apply add_job_201 in H201.
  destruct H201 as ((data & h & Hh & Hp & Hidp) & Hf & Hup).
  rewrite (add_job_accepted v env now req w h data Hh Hp Hidp).
  rewrite (add_job_handler_valid v now req _ Hf).
  cbn [db_up logged jobs users next_id trace]. rewrite Hup. cbn [snd].
  assert (Hin : In (posting now req w) (jobs w ++ [posting now req w])).
  { apply in_or_app. right. left. reflexivity. }
  assert (Hv : v' = VApiSecond \/ v' <> VApiSecond)
    by (destruct v'; (now left) || (right; discriminate)).
  assert (Hall : exists l',
             jobs_returned (all_jobs v' t)
               (mkWorld (jobs w ++ [posting now req w]) (users w) true
                  (S (next_id w))
                  (JobSave :: AxiosGetUser (presented_credential h) :: trace w))
             = Some l' /\ In (posting now req w) l').
  { unfold jobs_returned, answer. destruct Hv as [-> | Hv].
    - rewrite all_jobs_thirty_days_run. eexists. split; [cbn; reflexivity|].
      apply sort_postedAt_desc_In, filter_In. split; [exact Hin|].
      unfold postedAt_gte, posting. cbn [postedAt]. apply Z.leb_le.
      unfold day_ms in *. lia.
    - rewrite (all_jobs_unfiltered_run v' t _ Hv). eexists.
      split; [cbn; reflexivity | exact Hin]. }
  destruct Hall as (l' & Hl' & Hinl').
  eexists _, l'.
  split; [unfold jobs_returned, answer; rewrite latest_jobs_run; cbn; reflexivity|].
  split; [|split; assumption].
  apply sort_postedAt_desc_In, filter_In. split; [exact Hin|].
  unfold postedAt_gte, posting. cbn [postedAt]. apply Z.leb_le.
  unfold day_ms in *. lia.
Qed.

Lemma add_job_then_listed_witness :
  exists l l',
    jobs_returned (latest_jobs VRootIndex (Fixture.now + day_ms))
      (snd (add_job VApiSecond Fixture.env Fixture.now Fixture.good_posting
              Fixture.world)) = Some l
    /\ In (posting Fixture.now Fixture.good_posting Fixture.world) l
    /\ jobs_returned (all_jobs VRootIndex (Fixture.now + day_ms))
         (snd (add_job VApiSecond Fixture.env Fixture.now Fixture.good_posting
                 Fixture.world)) = Some l'
    /\ In (posting Fixture.now Fixture.good_posting Fixture.world) l'.
Proof.
  apply (add_job_then_listed VApiSecond VRootIndex Fixture.env Fixture.now
           (Fixture.now + day_ms) Fixture.good_posting Fixture.world).
  - reflexivity.
  - vm_compute. discriminate.
Defined.

(* ===================================================================== *)
(** ** Further properties: accounts                                      *)
(* ===================================================================== *)

Lemma find_email_not_taken (e : JS.value) (us : list User) :
  email_taken e us = false ->
  find (fun u => value_eqb (email u) e) us = None.
Proof.
  unfold email_taken. induction us as [|h t IH]; simpl; [reflexivity|].
  destruct (value_eqb (email h) e); simpl; [discriminate | exact IH].
Qed.

Lemma email_taken_In (e : JS.value) (us : list User) :
  email_taken e us = true <-> exists u, In u us /\ email u = e.
Proof.
  unfold email_taken. rewrite existsb_exists.
  split; intros (u & Hin & H); exists u; (split; [exact Hin|]);
    now apply value_eqb_eq.
Qed.

(** [/register] on any request. *)
Lemma register_run (v : variant) (env : Env) (req : Request) (w : World) :
  register v env req w =
  match body_password (body req) with
  | None =>
      (Ret (mkResponse 500
              (MessageError "Error registering user" IllegalArguments)), w)
  | Some p =>
      if db_up w
      then if email_taken (body_email (body req)) (users w)
           then (Ret (mkResponse 500
                        (MessageError "Error registering user" DuplicateKey)),
                 mkWorld (jobs w) (users w) true (S (next_id w))
                         (UserSave :: trace w))
           else (Ret (mkResponse 201 (Message "User registered successfully!")),
                 mkWorld (jobs w) (users w ++ [registered env req p w]) true
                         (S (next_id w)) (UserSave :: trace w))
      else (Ret (mkResponse 500
                   (MessageError "Error registering user" StoreError)),
            mkWorld (jobs w) (users w) false (S (next_id w))
                    (UserSave :: trace w))
  end.
Proof.
  destruct v; cbv [register RootIndex.register Unnamed000.register
                   ApiFirst.register ApiSecond.register hash];
    cbv zeta; destruct (body_password (body req)) as [p|];
    try reflexivity;
    cbv [new_User User_save]; run_monad;
    cbv [logged registered email_taken];
    cbn [db_up jobs users next_id trace email];
    destruct (db_up w); try reflexivity;
    destruct (existsb _ (users w)); reflexivity.
Qed.

(** [/login] on any request. *)
Lemma login_run (v : variant) (env : Env) (req : Request) (w : World) :
  login v env req w =
  (Ret (if db_up w
        then match find (fun u => value_eqb (email u) (body_email (body req)))
                        (users w) with
             | None => mkResponse 400 (Message "User not found")
             | Some u =>
                 match body_password (body req) with
                 | None => mkResponse 500
                             (MessageError "Error during login" IllegalArguments)
                 | Some p =>
                     if bcrypt_compare env p (password u)
                     then if signs_jwt v
                          then mkResponse 500
                                 (MessageError "Error during login"
                                    (ReferenceError "jwt"))
                          else mkResponse 200 (MessageUser "Login successful" u)
                     else mkResponse 400 (Message "Invalid credentials")
                 end
             end
        else mkResponse 500 (MessageError "Error during login" StoreError)),
   logged UserFindOne w).
Proof.
  destruct v; cbv [login RootIndex.login Unnamed000.login ApiFirst.login
                   ApiSecond.login User_findOne compare signs_jwt];
    cbv zeta; run_monad; cbn [db_up logged users];
    destruct (db_up w); try reflexivity;
    destruct (find _ (users w)) as [u|]; try reflexivity;
    destruct (body_password (body req)) as [p|]; try reflexivity;
    destruct (bcrypt_compare env p (password u)); reflexivity.
Qed.

(** X10. A request with a password and an email no stored account has,
    while the store is up: [/register] answers 201 and appends one
    account, which carries the bcrypt hash of the password and is not
    verified; the postings and the accounts stored before are untouched. *)
Theorem register_success
        (v : variant) (env : Env) (req : Request) (w : World) (p : string) :
  body_password (body req) = Some p ->
  email_taken (body_email (body req)) (users w) = false ->
  db_up w = true ->
  register v env req w
  = (Ret (mkResponse 201 (Message "User registered successfully!")),
     mkWorld (jobs w)
             (users w ++ [mkUser (next_id w) (body_name (body req))
                                 (body_email (body req))
                                 (body_department (body req))
                                 (bcrypt_hash env p) false])
             true (S (next_id w)) (UserSave :: trace w)).
Proof.
  intros Hp He Hup. rewrite register_run, Hp, Hup, He. reflexivity.
Qed.

Lemma register_success_witness :
  register VRootIndex Fixture.env Fixture.scenario_registration Fixture.empty_world
  = (Ret (mkResponse 201 (Message "User registered successfully!")),
     mkWorld [] ([] ++ [mkUser 0 (Some "A") (Some "a@x.com") (Some "Eng")
                               (bcrypt_hash Fixture.env "pw") false])
             true 1 [UserSave]).
Proof.
  apply (register_success VRootIndex Fixture.env Fixture.scenario_registration
           Fixture.empty_world "pw"); reflexivity.
Defined.

(** X11. A request that carries a password, with an email that a
    stored account has already, while the store is up: [/register]
    answers 500 "Error registering user" with the duplicate-key error of
    the store, and both collections are as before. *)
Theorem register_duplicate_email
        (v : variant) (env : Env) (req : Request) (w : World) (p : string) (u : User) :
  body_password (body req) = Some p ->
  In u (users w) ->
  email u = body_email (body req) ->
  db_up w = true ->
  exists w',
    register v env req w
    = (Ret (mkResponse 500 (MessageError "Error registering user" DuplicateKey)),
       w')
    /\ collections w' = collections w.
Proof.
  intros Hp Hin He Hup.
  assert (Ht : email_taken (body_email (body req)) (users w) = true)
    by (apply email_taken_In; eauto).
  rewrite register_run, Hp, Hup, Ht. eexists. split; reflexivity.
Qed.

Lemma register_duplicate_email_witness :
  exists w',
    register VApiSecond Fixture.env Fixture.scenario_registration Fixture.world
    = (Ret (mkResponse 500 (MessageError "Error registering user" DuplicateKey)),
       w')
    /\ collections w' = collections Fixture.world.
Proof.
  apply (register_duplicate_email VApiSecond Fixture.env
           Fixture.scenario_registration Fixture.world "pw" Fixture.account).
  - reflexivity.
  - left. reflexivity.
  - reflexivity.
  - reflexivity.
Defined.

(** X12. A request without a password: [bcrypt.hash] rejects, so
    [/register] answers 500 "Error registering user" before it reaches the
    store; the world is left exactly as it was. *)
Theorem register_missing_password
        (v : variant) (env : Env) (req : Request) (w : World) :
  body_password (body req) = None ->
  register v env req w
  = (Ret (mkResponse 500 (MessageError "Error registering user" IllegalArguments)),
     w).
Proof.
  intros Hp. rewrite register_run, Hp. reflexivity.
Qed.

Lemma register_missing_password_witness :
  register VApiFirst Fixture.env
    (Fixture.request None
       (Fixture.register_body (Some "B") (Some "b@x.com") (Some "Ops") None))
    Fixture.world
  = (Ret (mkResponse 500 (MessageError "Error registering user" IllegalArguments)),
     Fixture.world).
Proof.
  apply (register_missing_password VApiFirst Fixture.env
           (Fixture.request None
              (Fixture.register_body (Some "B") (Some "b@x.com") (Some "Ops") None))
           Fixture.world).
  reflexivity.
Defined.

Lemma unique_emails_snoc (us : list User) (u : User) :
  unique_emails us ->
  email_taken (email u) us = false ->
  unique_emails (us ++ [u]).
Proof.
  unfold unique_emails. intros Hnd Ht. rewrite map_app. simpl.
  assert (Hfresh : ~ In (email u) (map email us)).
  { intros Hin. apply in_map_iff in Hin. destruct Hin as (x & Hx & Hxin).
    assert (email_taken (email u) us = true)
      by (apply email_taken_In; eauto).
    congruence. }
  clear Ht. induction (map email us) as [|a l IHl]; simpl.
  - constructor; [simpl; tauto | constructor].
  - inversion Hnd; subst. constructor.
    + intros Hin. apply in_app_or in Hin. simpl in *. intuition congruence.
    + apply IHl; [assumption | simpl in Hfresh; tauto].
Qed.

(** X13. Whatever the request, [/register] returns a response with
    status 201 or 500 and never touches the postings; the stored accounts
    are the ones before, in their order, followed by one new account when
    the status is 201 and by nothing otherwise; and emails that were
    pairwise distinct stay so. *)
Theorem register_keeps_accounts
        (v : variant) (env : Env) (req : Request) (w : World) :
  exists r w',
    register v env req w = (Ret r, w')
    /\ jobs w' = jobs w
    /\ ((status r = 201 /\ exists u, users w' = (users w ++ [u])%list
                                     /\ email u = body_email (body req))
        \/ (status r = 500 /\ users w' = users w))
    /\ (unique_emails (users w) -> unique_emails (users w')).
Proof.
  rewrite register_run.
  destruct (body_password (body req)) as [p|].
  - destruct (db_up w).
    + destruct (email_taken (body_email (body req)) (users w)) eqn:Ht.
      * eexists _, _. split; [reflexivity|]. split; [reflexivity|].
        split; [right; split; reflexivity | auto].
      * eexists _, _. split; [reflexivity|]. split; [reflexivity|]. split.
        -- left. split; [reflexivity|]. eexists. split; reflexivity.
        -- intros Hnd. cbn [users]. now apply unique_emails_snoc.
    + eexists _, _. split; [reflexivity|]. split; [reflexivity|].
      split; [right; split; reflexivity | auto].
  - eexists _, _. split; [reflexivity|]. split; [reflexivity|].
    split; [right; split; reflexivity | auto].
Qed.

Lemma register_201 (v : variant) (env : Env) (req : Request) (w : World) :
  status_returned (register v env req) w = Some 201 ->
  exists p,
    body_password (body req) = Some p
    /\ email_taken (body_email (body req)) (users w) = false
    /\ db_up w = true.
Proof.
  unfold status_returned, answer. rewrite register_run.
  destruct (body_password (body req)) as [p|]; [|discriminate].
  destruct (db_up w); [|discriminate].
  destruct (email_taken (body_email (body req)) (users w)); [discriminate|].
  eauto.
Qed.

(** X14. After a registration that answered 201, a second registration
    with the same email, whatever its other fields and in any variant,
    answers 500 "Error registering user" and adds no account: the error is
    the duplicate-key error of the store when the second request carries a
    password, and the one of [bcrypt.hash] when it carries none. *)
Theorem register_twice
        (v v' : variant) (env : Env) (req req' : Request) (w : World) :
  status_returned (register v env req) w = Some 201 ->
  body_email (body req') = body_email (body req) ->
  exists w'',
    register v' env req' (snd (register v env req w))
    = (Ret (mkResponse 500
              (MessageError "Error registering user"
                 (match body_password (body req') with
                  | Some _ => DuplicateKey
                  | None => IllegalArguments
                  end))),
       w'')
    /\ collections w'' = collections (snd (register v env req w)).
Proof.
  intros H201 He. destruct (register_201 v env req w H201) as (p & Hp & Ht & Hup).
  rewrite (register_run v env req w), Hp, Hup, Ht. cbn [snd].
  assert (Htaken : email_taken (body_email (body req'))
                     (users w ++ [registered env req p w]) = true).
  { apply email_taken_In. exists (registered env req p w). split.
    - apply in_or_app. right. left. reflexivity.
    - cbn [registered email]. now rewrite He. }
  rewrite register_run. destruct (body_password (body req')) as [q|].
  - cbn [db_up users]. rewrite Htaken. eexists. split; reflexivity.
  - eexists. split; reflexivity.
Qed.

Lemma register_twice_witness :
  exists w'',
    register VApiSecond Fixture.env Fixture.scenario_registration
      (snd (register VRootIndex Fixture.env Fixture.scenario_registration
              Fixture.empty_world))
    = (Ret (mkResponse 500
              (MessageError "Error registering user"
                 (match body_password (body Fixture.scenario_registration) with
                  | Some _ => DuplicateKey
                  | None => IllegalArguments
                  end))),
       w'')
    /\ collections w''
       = collections (snd (register VRootIndex Fixture.env
                             Fixture.scenario_registration Fixture.empty_world)).
Proof.
  apply (register_twice VRootIndex VApiSecond Fixture.env
           Fixture.scenario_registration Fixture.scenario_registration
           Fixture.empty_world); reflexivity.
Defined.

(** X15. Registration followed by login: when bcrypt accepts a password
    against its own hash, logging in with the email and password of a
    registration that answered 201 finds the new account and passes the
    password check; the answer is 200 with that account in [ApiSecond],
    and 500 "Error during login" in the three variants that sign a token
    with the unbound [jwt]. *)
Theorem register_then_login
        (v v' : variant) (env : Env) (req : Request) (w : World) (p : string) :
  body_password (body req) = Some p ->
  bcrypt_compare env p (bcrypt_hash env p) = true ->
  status_returned (register v env req) w = Some 201 ->
  fst (login v' env req (snd (register v env req w)))
  = Ret (if signs_jwt v'
         then mkResponse 500
                (MessageError "Error during login" (ReferenceError "jwt"))
         else mkResponse 200
                (MessageUser "Login successful" (registered env req p w))).
Proof.
  intros Hp Hc H201.
  destruct (register_201 v env req w H201) as (p' & Hp' & Ht & Hup).
  assert (p' = p) by congruence. subst p'.
  rewrite (register_run v env req w), Hp, Hup, Ht. cbn [snd].
  rewrite login_run. cbn [fst db_up users].
  assert (Hf : find (fun u => value_eqb (email u) (body_email (body req)))
                 (users w ++ [registered env req p w])
               = Some (registered env req p w)).
  { pose proof (find_email_not_taken _ _ Ht) as Hnone.
    induction (users w) as [|h t IH]; simpl in *.
    - now rewrite value_eqb_refl.
    - destruct (value_eqb (email h) (body_email (body req)));
        [discriminate | now apply IH]. }
  unfold registered in *. rewrite Hf, Hp. cbn [password]. rewrite Hc.
  reflexivity.
Qed.

Lemma register_then_login_witness :
  fst (login VApiSecond Fixture.env Fixture.scenario_registration
         (snd (register VRootIndex Fixture.env Fixture.scenario_registration
                 Fixture.empty_world)))
  = Ret (if signs_jwt VApiSecond
         then mkResponse 500
                (MessageError "Error during login" (ReferenceError "jwt"))
         else mkResponse 200
                (MessageUser "Login successful"
                   (registered Fixture.env Fixture.scenario_registration "pw"
                      Fixture.empty_world))).
Proof.
  apply (register_then_login VRootIndex VApiSecond Fixture.env
           Fixture.scenario_registration Fixture.empty_world "pw"); reflexivity.
Defined.

(** X16. A request whose email is a text value that no stored account
    has, while the store is up: [/login] answers 400 "User not found"
    after the one lookup, without looking at the password. *)
Theorem login_unknown_email
        (v : variant) (env : Env) (req : Request) (w : World) (e : string) :
  body_email (body req) = Some e ->
  (forall u, In u (users w) -> email u <> Some e) ->
  db_up w = true ->
  login v env req w
  = (Ret (mkResponse 400 (Message "User not found")), logged UserFindOne w).
Proof.
  intros He Hnone Hup.
  assert (Ht : email_taken (body_email (body req)) (users w) = false).
  { rewrite He. destruct (email_taken (Some e) (users w)) eqn:E; [|reflexivity].
    apply email_taken_In in E. destruct E as (u & Hin & Hu).
    exfalso. exact (Hnone u Hin Hu). }
  rewrite login_run, Hup, (find_email_not_taken _ _ Ht). reflexivity.
Qed.

Lemma login_unknown_email_witness :
  login VRootIndex Fixture.env
    (Fixture.request None (Fixture.login_body (Some "nobody@x.com") None))
    Fixture.world
  = (Ret (mkResponse 400 (Message "User not found")),
     logged UserFindOne Fixture.world).
Proof.
  apply (login_unknown_email VRootIndex Fixture.env
           (Fixture.request None (Fixture.login_body (Some "nobody@x.com") None))
           Fixture.world "nobody@x.com").
  - reflexivity.
  - intros u [<- | []]. discriminate.
  - reflexivity.
Defined.

(** X17. The email of a stored account and no password in the body:
    [bcrypt.compare] rejects and [/login] answers 500 "Error during
    login", not 400. *)
Theorem login_missing_password
        (v : variant) (env : Env) (req : Request) (w : World) (u : User) :
  db_up w = true ->
  unique_emails (users w) ->
  In u (users w) ->
  body_email (body req) = email u ->
  body_password (body req) = None ->
  login v env req w
  = (Ret (mkResponse 500 (MessageError "Error during login" IllegalArguments)),
     logged UserFindOne w).
Proof.
  intros Hup Hnd Hin He Hp.
  rewrite login_run, Hup, He, (find_by_email _ _ Hnd Hin), Hp. reflexivity.
Qed.

Lemma login_missing_password_witness :
  login VApiSecond Fixture.env
    (Fixture.request None (Fixture.login_body (Some "a@x.com") None))
    Fixture.world
  = (Ret (mkResponse 500 (MessageError "Error during login" IllegalArguments)),
     logged UserFindOne Fixture.world).
Proof.
  apply (login_missing_password VApiSecond Fixture.env
           (Fixture.request None (Fixture.login_body (Some "a@x.com") None))
           Fixture.world Fixture.account).
  - reflexivity.
  - repeat constructor. simpl. tauto.
  - left. reflexivity.
  - reflexivity.
  - reflexivity.
Defined.

(** X18. Whatever the request, [/login] returns a response with status
    200, 400 or 500, makes exactly one call, a lookup in the store, and
    writes nothing. *)
Theorem login_never_writes (v : variant) (env : Env) (req : Request) (w : World) :
  exists r,
    login v env req w = (Ret r, logged UserFindOne w)
    /\ (status r = 200 \/ status r = 400 \/ status r = 500)
    /\ collections (logged UserFindOne w) = collections w.
Proof.
  rewrite login_run. eexists. split; [reflexivity|]. split; [|reflexivity].
  destruct (db_up w); [|auto].
  destruct (find _ (users w)) as [u|]; [|auto].
  destruct (body_password (body req)) as [p|]; [|auto].
  destruct (bcrypt_compare env p (password u)); [|auto].
  destruct (signs_jwt v); auto.
Qed.

(** X19. For a request whose email is a text value, [/login] answers
    200 only when the store is up and holds an account with that email
    whose stored hash bcrypt accepts for the password of the request, and
    only in a variant that does not sign a token. *)
Theorem login_200_only_if_match
        (v : variant) (env : Env) (req : Request) (w : World) (e : string) :
  body_email (body req) = Some e ->
  status_returned (login v env req) w = Some 200 ->
  signs_jwt v = false
  /\ db_up w = true
  /\ exists u p,
       In u (users w)
       /\ email u = Some e
       /\ body_password (body req) = Some p
       /\ bcrypt_compare env p (password u) = true.
Proof.
  intros He. unfold status_returned, answer. rewrite login_run, He.
  cbn [fst option_map].
  destruct (db_up w); [|discriminate].
  destruct (find _ (users w)) as [u|] eqn:Hf; [|discriminate].
  destruct (body_password (body req)) as [p|]; [|discriminate].
  destruct (bcrypt_compare env p (password u)) eqn:Hc; [|discriminate].
  destruct (signs_jwt v); [discriminate|]. intros _.
  apply find_some in Hf. destruct Hf as [Hin Hu]. apply value_eqb_eq in Hu.
  split; [reflexivity|]. split; [reflexivity|]. exists u, p. auto.
Qed.

Lemma login_200_only_if_match_witness :
  signs_jwt VApiSecond = false
  /\ db_up Fixture.world = true
  /\ exists u p,
       In u (users Fixture.world)
       /\ email u = Some "a@x.com"
       /\ Some "pw" = Some p
       /\ bcrypt_compare Fixture.env p (password u) = true.
Proof.
  apply (login_200_only_if_match VApiSecond Fixture.env
           (Fixture.request None (Fixture.login_body (Some "a@x.com") (Some "pw")))
           Fixture.world "a@x.com").
  - reflexivity.
  - reflexivity.
Defined.

(** X20. While the store is down, [/login] answers 500 "Error during
    login" after one attempted lookup, whatever the request; [/register]
    answers 500 "Error registering user", with the error of the store
    after one attempted save when the request carries a password, and with
    the one of [bcrypt.hash] and no store call when it carries none.
    Neither changes a collection. *)
Theorem account_routes_store_down
        (v : variant) (env : Env) (req : Request) (w : World) :
  db_up w = false ->
  (exists w',
     login v env req w
     = (Ret (mkResponse 500 (MessageError "Error during login" StoreError)), w')
     /\ collections w' = collections w
     /\ store_calls w' = UserFindOne :: store_calls w)
  /\ (exists w',
        register v env req w
        = (Ret (mkResponse 500
                  (MessageError "Error registering user"
                     (match body_password (body req) with
                      | Some _ => StoreError
                      | None => IllegalArguments
                      end))),
           w')
        /\ collections w' = collections w
        /\ store_calls w'
           = match body_password (body req) with
             | Some _ => UserSave :: store_calls w
             | None => store_calls w
             end).
Proof.
  intros Hup. split.
  - rewrite login_run, Hup. eexists. repeat split.
  - rewrite register_run. destruct (body_password (body req)) as [p|].
    + rewrite Hup. eexists. repeat split.
    + eexists. repeat split.
Qed.

Lemma account_routes_store_down_witness :
  exists w',
    login VRootIndex Fixture.env
      (Fixture.request None (Fixture.login_body (Some "a@x.com") None))
      Fixture.down_world
    = (Ret (mkResponse 500 (MessageError "Error during login" StoreError)), w')
    /\ collections w' = collections Fixture.down_world
    /\ store_calls w' = UserFindOne :: store_calls Fixture.down_world.
Proof.
  apply (proj1 (account_routes_store_down VRootIndex Fixture.env
                  (Fixture.request None
                     (Fixture.login_body (Some "a@x.com") None))
                  Fixture.down_world eq_refl)).
Defined.

(* ===================================================================== *)
(** ** Further properties: the job queries                               *)
(* ===================================================================== *)

(** X21. While the store is down, [/all-jobs] answers 500 "Error
    fetching jobs" and [/latest-jobs] answers 500 "Error fetching latest
    jobs", each after one attempted query; neither changes a collection. *)
Theorem job_queries_store_down (v : variant) (now : Z) (w : World) :
  db_up w = false ->
  all_jobs v now w
  = (Ret (mkResponse 500 (MessageError "Error fetching jobs" StoreError)),
     logged JobFind w)
  /\ latest_jobs v now w
     = (Ret (mkResponse 500 (MessageError "Error fetching latest jobs" StoreError)),
        logged JobFind w)
  /\ collections (logged JobFind w) = collections w.
Proof.
  intros Hup. split; [|split; [|reflexivity]].
  - destruct v;
      try (rewrite all_jobs_unfiltered_run by discriminate; now rewrite Hup).
    rewrite all_jobs_thirty_days_run. now rewrite Hup.
  - rewrite latest_jobs_run. now rewrite Hup.
Qed.

Lemma job_queries_store_down_witness :
  all_jobs VApiSecond Fixture.now Fixture.down_world
  = (Ret (mkResponse 500 (MessageError "Error fetching jobs" StoreError)),
     logged JobFind Fixture.down_world)
  /\ latest_jobs VApiSecond Fixture.now Fixture.down_world
     = (Ret (mkResponse 500 (MessageError "Error fetching latest jobs" StoreError)),
        logged JobFind Fixture.down_world)
  /\ collections (logged JobFind Fixture.down_world)
     = collections Fixture.down_world.
Proof.
  apply (job_queries_store_down VApiSecond Fixture.now Fixture.down_world).
  reflexivity.
Defined.

(** What [/all-jobs] lists while the store is up. *)
Lemma all_jobs_listed (v : variant) (now : Z) (w : World) :
  db_up w = true ->
  jobs_returned (all_jobs v now) w
  = Some (match v with
          | VApiSecond =>
              sort_postedAt_desc
                (filter (postedAt_gte (now - 30 * day_ms)) (jobs w))
          | _ => jobs w
          end).
Proof.
  intros Hup. unfold jobs_returned, answer.
  destruct v;
    try (rewrite all_jobs_unfiltered_run by discriminate; now rewrite Hup).
  rewrite all_jobs_thirty_days_run. now rewrite Hup.
Qed.

Lemma latest_jobs_listed (v : variant) (now : Z) (w : World) :
  db_up w = true ->
  jobs_returned (latest_jobs v now) w
  = Some (sort_postedAt_desc (filter (postedAt_gte (now - day_ms)) (jobs w))).
Proof.
  intros Hup. unfold jobs_returned, answer. rewrite latest_jobs_run.
  now rewrite Hup.
Qed.

(** X22. At one reading of the clock and while the store is up, every
    posting [/latest-jobs] lists is also listed by [/all-jobs], whichever
    variant answers either: the 24-hour window lies inside the 30-day
    one. *)
Theorem latest_jobs_within_all_jobs (v v' : variant) (now : Z) (w : World) :
  db_up w = true ->
  exists l l',
    jobs_returned (latest_jobs v now) w = Some l
    /\ jobs_returned (all_jobs v' now) w = Some l'
    /\ incl l l'.
Proof.
  intros Hup. eexists _, _.
  split; [now apply latest_jobs_listed|].
  split; [now apply all_jobs_listed|].
  intros j Hj. apply sort_postedAt_desc_In, filter_In in Hj.
  destruct Hj as [Hin Hw]. unfold postedAt_gte in Hw. apply Z.leb_le in Hw.
  destruct v'; try exact Hin.
  apply sort_postedAt_desc_In, filter_In. split; [exact Hin|].
  unfold postedAt_gte. apply Z.leb_le. unfold day_ms in *. lia.
Qed.

Lemma latest_jobs_within_all_jobs_witness :
  exists l l',
    jobs_returned (latest_jobs VRootIndex Fixture.now) Fixture.world = Some l
    /\ jobs_returned (all_jobs VApiSecond Fixture.now) Fixture.world = Some l'
    /\ incl l l'.
Proof.
  apply (latest_jobs_within_all_jobs VRootIndex VApiSecond Fixture.now
           Fixture.world).
  reflexivity.
Defined.

(** X23. With nothing written in between and the store up, a later
    [/latest-jobs] lists no posting that an earlier one did not: postings
    only leave the window as the clock advances. *)
Theorem latest_jobs_window_shrinks (v v' : variant) (t1 t2 : Z) (w : World) :
  db_up w = true ->
  t1 <= t2 ->
  exists l1 l2,
    jobs_returned (latest_jobs v t1) w = Some l1
    /\ jobs_returned (latest_jobs v' t2) (snd (latest_jobs v t1 w)) = Some l2
    /\ incl l2 l1.
Proof.
  intros Hup Ht. eexists _, _.
  split; [now apply latest_jobs_listed|].
  rewrite latest_jobs_run. cbn [snd].
  split; [now apply latest_jobs_listed|].
  cbn [jobs logged]. intros j Hj.
  apply sort_postedAt_desc_In, filter_In in Hj. destruct Hj as [Hin Hw].
  apply sort_postedAt_desc_In, filter_In. split; [exact Hin|].
  unfold postedAt_gte in *. apply Z.leb_le in Hw. apply Z.leb_le. lia.
Qed.

Lemma latest_jobs_window_shrinks_witness :
  exists l1 l2,
    jobs_returned (latest_jobs VRootIndex Fixture.now) Fixture.world = Some l1
    /\ jobs_returned (latest_jobs VApiFirst (Fixture.now + 1))
         (snd (latest_jobs VRootIndex Fixture.now Fixture.world)) = Some l2
    /\ incl l2 l1.
Proof.
  apply (latest_jobs_window_shrinks VRootIndex VApiFirst Fixture.now
           (Fixture.now + 1) Fixture.world).
  - reflexivity.
  - vm_compute. discriminate.
Defined.



